(** * Notes application: validation schema, Note model and NoteService

    A shallow embedding of

      - [app/schemas/note.py]          (NoteBase / NoteCreate / NoteUpdate),
      - [app/models/note.py]           (the Note entity and [update_content]),
      - [app/services/note_service.py] (NoteService, the repository),
      - the form handlers of [app/routers/web.py] that call them,

    together with the properties of the CRUD contract.

    Python strings are sequences of Unicode code points; a session of the
    ORM is a state that the service threads through its calls, so the
    service lives in a small state-and-exception monad.  The first part of
    the file holds the definitions, the second the facts about them. *)

From Stdlib Require Import List ZArith NArith Bool Lia Ascii String Permutation.
Import ListNotations.

(* ================================================================= *)
(** ** Python strings *)

Module PyStr.

(** A code point. *)
Definition char := N.

(** [str]: an immutable sequence of code points; [len] counts them. *)
Definition str := list char.

Definition len (s : str) : Z := Z.of_nat (List.length s).

(** [str.isspace] on one character, which is what [str.strip()] with no
    argument tests: the code points whose bidirectional class is WS, B or
    S, or whose category is Zs. *)
Definition isspace (c : char) : bool :=
  (((9 <=? c) && (c <=? 13))
   || ((28 <=? c) && (c <=? 32))
   || (c =? 133) || (c =? 160) || (c =? 5760)
   || ((8192 <=? c) && (c <=? 8202))
   || (c =? 8232) || (c =? 8233) || (c =? 8239) || (c =? 8287)
   || (c =? 12288))%N.

(** [s.lstrip()] *)
Fixpoint lstrip (s : str) : str :=
  match s with
  | [] => []
  | c :: t => if isspace c then lstrip t else s
  end.

(** [s.rstrip()] *)
Fixpoint rstrip (s : str) : str :=
  match s with
  | [] => []
  | c :: t =>
      match rstrip t with
      | [] => if isspace c then [] else [c]
      | r => c :: r
      end
  end.

(** [s.strip()] *)
Definition strip (s : str) : str := rstrip (lstrip s).

(** Truth value of a string: [not v] holds of the empty string only. *)
Definition truthy (s : str) : bool :=
  match s with [] => false | _ => true end.

(** A string made of whitespace only (the empty string included). *)
Definition whitespace_only (s : str) : bool := forallb isspace s.

(** A surrogate code point (U+D800 to U+DFFF): a [str] can hold one on
    its own, and such a string has no UTF-8 encoding. *)
Definition is_surrogate (c : char) : bool :=
  ((55296 <=? c) && (c <=? 57343))%N.

(** A string that can be encoded as text: no surrogate in it. *)
Definition well_formed (s : str) : bool :=
  forallb (fun c => negb (is_surrogate c)) s.

Definition eqb (a b : str) : bool :=
  if list_eq_dec N.eq_dec a b then true else false.

(** Literals, for examples: the code points of an ASCII string. *)
Fixpoint of_string (s : String.string) : str :=
  match s with
  | EmptyString => []
  | String a t => N_of_ascii a :: of_string t
  end.

End PyStr.

Import PyStr.

(* ================================================================= *)
(** ** app/schemas/note.py *)

(** The entries of a pydantic [ValidationError] that the [content] field
    can produce, by their [type]: the field is absent, the string cannot
    be read as text, the [min_length] and [max_length] constraints of
    [Field], and a [ValueError] raised by a field validator (with its
    message). *)
Inductive ErrorDetails : Type :=
| missing
| string_unicode
| string_too_short (min_length : Z)
| string_too_long (max_length : Z)
| value_error (msg : String.string).

Inductive Validated (A : Type) : Type :=
| Valid (a : A)
| ValidationError (e : ErrorDetails).

Arguments Valid {A} a.
Arguments ValidationError {A} e.

Module NoteBase.

(** [Field(min_length=1, max_length=5000, ...)] *)
Definition min_length : Z := 1.
Definition max_length : Z := 5000.

Definition msg_empty : String.string :=
  "Note content cannot be empty or whitespace only".
Definition msg_too_long : String.string :=
  "Note content cannot exceed 5000 characters".

(** [validate_content(cls, v)], the field validator. *)
Definition validate_content (v : str) : Validated str :=
  if negb (truthy v) || negb (truthy (strip v)) then
    ValidationError (value_error msg_empty)
  else
    let cleaned := strip v in
    if (len cleaned >? 5000)%Z then
      ValidationError (value_error msg_too_long)
    else
      Valid cleaned.

(** The constraints declared with [Field] are checked on the value as it
    was passed in; [field_validator('content')] is an after-validator and
    runs on a value that satisfied them.  (tests/unit/test_schemas.py
    expects pydantic's own "at most 5000 characters" message for a string
    of 5001 characters.)  To count its characters the constrained string
    is first read as text, which fails with [string_unicode] on a string
    that holds a surrogate, whatever its length. *)
Definition field_constraints (v : str) : Validated str :=
  if negb (well_formed v) then ValidationError string_unicode
  else if (len v <? min_length)%Z then ValidationError (string_too_short min_length)
  else if (len v >? max_length)%Z then ValidationError (string_too_long max_length)
  else Valid v.

(** The schema instance: one field. *)
Record t : Type := Build { content : str }.

(** [NoteBase(content=...)]; [None] stands for a call without the
    keyword. *)
Definition init (arg : option str) : Validated t :=
  match arg with
  | None => ValidationError missing
  | Some v =>
      match field_constraints v with
      | ValidationError e => ValidationError e
      | Valid v' =>
          match validate_content v' with
          | ValidationError e => ValidationError e
          | Valid cleaned => Valid (Build cleaned)
          end
      end
  end.

End NoteBase.

(** [class NoteCreate(NoteBase): pass] and [class NoteUpdate(NoteBase):
    pass]: the same field and the same validator. *)
Module NoteCreate.
Definition t := NoteBase.t.
Definition content := NoteBase.content.
Definition init := NoteBase.init.
End NoteCreate.

Module NoteUpdate.
Definition t := NoteBase.t.
Definition content := NoteBase.content.
Definition init := NoteBase.init.
End NoteUpdate.

(** The schema's operation on a string that is present. *)
Definition validate (s : str) : Validated NoteBase.t := NoteBase.init (Some s).

(** The names the contract gives the failures, read on the errors of the
    code: the empty-content error is the [min_length] violation or the
    validator's first [ValueError]; the too-long error is the [max_length]
    violation or the validator's second [ValueError]. *)
Definition EmptyContentError (e : ErrorDetails) : bool :=
  match e with
  | string_too_short _ => true
  | value_error m => String.eqb m NoteBase.msg_empty
  | _ => false
  end.

Definition TooLongError (e : ErrorDetails) : bool :=
  match e with
  | string_too_long _ => true
  | value_error m => String.eqb m NoteBase.msg_too_long
  | _ => false
  end.

(* ================================================================= *)
(** ** Exceptions and results *)

(** The errors of the storage layer, all subclasses of
    [sqlalchemy.exc.SQLAlchemyError]: a violated constraint of the table,
    a statement the store rejects, an object that has no row, and any
    failure of the connection or the driver (with whatever it reports). *)
Inductive SQLAlchemyError : Type :=
| IntegrityError
| DataError
| InvalidRequestError
| OperationalError (detail : N).

(** What the service and the model can raise. *)
Inductive Exception : Type :=
| ExcSQLAlchemyError (e : SQLAlchemyError)
| ExcValueError (msg : String.string).

Inductive Outcome (A : Type) : Type :=
| Return (a : A)
| Raise (e : Exception).

Arguments Return {A} a.
Arguments Raise {A} e.

(* ================================================================= *)
(** ** app/models/note.py *)

(** [uuid.UUID], a 128-bit number, and a timezone-aware [DateTime] as the
    store keeps it, counted in ticks of the store's clock. *)
Definition UUID := N.
Definition DateTime := Z.

Module Note.

(** A row of the table [notes]; every column is [nullable=False]. *)
Record t : Type := Build {
  id : UUID;
  content : str;
  created_at : DateTime;
  updated_at : DateTime
}.

Definition msg_empty : String.string := "Note content cannot be empty".

Definition set_content (self : t) (c : str) : t :=
  Build (id self) c (created_at self) (updated_at self).

(** [update_content(self, new_content)]: the object after the call, or
    the [ValueError]. *)
Definition update_content (self : t) (new_content : str) : Outcome t :=
  if negb (truthy new_content) || negb (truthy (strip new_content)) then
    Raise (ExcValueError msg_empty)
  else
    Return (set_content self (strip new_content)).

End Note.

(* ================================================================= *)
(** ** The ORM session (sqlalchemy.orm.Session over the table [notes]) *)

(** What a session holds between two commits: objects added and not yet
    inserted (their [id] and timestamps are column defaults, filled in by
    the INSERT), loaded objects with an attribute that was set, and objects
    marked for deletion. *)
Inductive Pending : Type :=
| pending_new (content : str)
| pending_dirty (id : UUID) (content : str)
| pending_deleted (id : UUID).

(** The methods of the session that the service calls; the session keeps
    the record of the calls made on it, as the mocked session of
    tests/unit does. *)
Inductive Call : Type :=
| call_add | call_delete | call_query | call_commit | call_refresh
| call_rollback.

Record Session : Type := mkSession {
  table : list Note.t;          (* the committed rows, in the store's order *)
  unit_of_work : list Pending;  (* what the next commit will flush *)
  calls : list Call             (* the calls made so far, oldest first *)
}.

Definition empty_session : Session := mkSession [] [] [].

(** What one operation draws from outside the program: the value of
    [uuid.uuid4()] (the [default] of [id]), the store's [now()] (the
    [server_default] of both timestamps and the [onupdate] of
    [updated_at]), and for each method of the session the error it fails
    with, if it fails. *)
Record Env : Type := mkEnv {
  uuid4 : UUID;
  now : DateTime;
  fault : Call -> option SQLAlchemyError
}.

Definition no_fault : Call -> option SQLAlchemyError := fun _ => None.

(** Computations on a session that return or raise. *)
Definition M (A : Type) : Type := Session -> Outcome A * Session.

Definition ret {A} (a : A) : M A := fun s => (Return a, s).

Definition raise {A} (e : Exception) : M A := fun s => (Raise e, s).

Definition bind {A B} (m : M A) (k : A -> M B) : M B :=
  fun s =>
    match m s with
    | (Return a, s') => k a s'
    | (Raise e, s') => (Raise e, s')
    end.

Declare Scope session_scope.
Delimit Scope session_scope with session.
Notation "x <- m ;; k" := (bind m (fun x => k))
  (at level 100, m at next level, right associativity) : session_scope.
Notation "m ;; k" := (bind m (fun _ => k))
  (at level 100, right associativity) : session_scope.
Open Scope session_scope.

Definition lift {A} (o : Outcome A) : M A := fun s => (o, s).

Definition record_call (c : Call) (s : Session) : Session :=
  mkSession (table s) (unit_of_work s) (calls s ++ [c]).

Definition register (p : Pending) (s : Session) : Session :=
  mkSession (table s) (unit_of_work s ++ [p]) (calls s).

(** Entering a method of the session: the call is recorded, and fails if
    the environment says so. *)
Definition call (env : Env) (c : Call) : M unit :=
  fun s =>
    match fault env c with
    | Some e => (Raise (ExcSQLAlchemyError e), record_call c s)
    | None => (Return tt, record_call c s)
    end.

Definition has_id (i : UUID) (n : Note.t) : bool := (Note.id n =? i)%N.

(** The row an INSERT writes: [id] from [uuid4], both timestamps from
    [now()]. *)
Definition inserted (env : Env) (c : str) : Note.t :=
  Note.Build (uuid4 env) c (now env) (now env).

(** The row the flush of a loaded object [n] whose [content] was set to
    [c] leaves.  Setting an attribute marks the object dirty; at flush time
    the unit of work compares each attribute with its previously saved
    value and, if there is no net change, no SQL operation occurs
    (SQLAlchemy, [Session.dirty] and [Session.is_modified]).  An UPDATE
    sets [content] and, by [onupdate=func.now()], [updated_at];
    [created_at] has no [onupdate] and is never in the SET clause. *)
Definition updated (env : Env) (n : Note.t) (c : str) : Note.t :=
  if PyStr.eqb (Note.content n) c then n
  else Note.Build (Note.id n) c (Note.created_at n) (now env).

(** The rows an UPDATE of the object of id [i] touches: those of that id
    (the primary key allows one) whose content is not [c] already. *)
Definition changed (i : UUID) (c : str) (n : Note.t) : bool :=
  has_id i n && negb (PyStr.eqb (Note.content n) c).

(** The table after the flush of that object.  With no net change there
    is no UPDATE and the table is as it was.  An UPDATE writes a new
    version of the row, which the store then returns after the rows it
    did not touch. *)
Definition update_rows (env : Env) (i : UUID) (c : str) (rows : list Note.t)
  : list Note.t :=
  if existsb (changed i c) rows then
    filter (fun n => negb (has_id i n)) rows
    ++ map (fun n => updated env n c) (filter (has_id i) rows)
  else rows.

(** DELETE by primary key. *)
Definition delete_rows (i : UUID) (rows : list Note.t) : list Note.t :=
  filter (fun n => negb (has_id i n)) rows.

(** The statement one pending object becomes, applied to the rows; the
    primary key rejects an INSERT whose [id] is already there. *)
Definition apply_pending (env : Env) (rows : list Note.t) (p : Pending)
  : option (list Note.t) :=
  match p with
  | pending_new c =>
      if existsb (has_id (uuid4 env)) rows then None
      else Some (rows ++ [inserted env c])
  | pending_dirty i c => Some (update_rows env i c rows)
  | pending_deleted i => Some (delete_rows i rows)
  end.

(** The flush of a commit: the pending objects in order, all or nothing. *)
Fixpoint flush (env : Env) (rows : list Note.t) (ps : list Pending)
  : option (list Note.t) :=
  match ps with
  | [] => Some rows
  | p :: ps' =>
      match apply_pending env rows p with
      | Some rows' => flush env rows' ps'
      | None => None
      end
  end.

(** [db.add(obj)] for [obj = Note(content=c)] *)
Definition db_add (env : Env) (c : str) : M unit :=
  call env call_add ;; fun s => (Return tt, register (pending_new c) s).

(** [db.delete(obj)] *)
Definition db_delete (env : Env) (obj : Note.t) : M unit :=
  call env call_delete ;;
  fun s => (Return tt, register (pending_deleted (Note.id obj)) s).

(** Setting [obj.content] on an object the session loaded: the session
    sees the change; no method of the session is called. *)
Definition db_modified (obj : Note.t) : M unit :=
  fun s =>
    (Return tt, register (pending_dirty (Note.id obj) (Note.content obj)) s).

(** Text the driver takes as a parameter of a statement: the driver of
    the configured store (psycopg2, config.py) refuses a string that
    holds a NUL character with a [ValueError] of its own, before any
    statement is sent. *)
Definition nul_free (c : str) : bool :=
  forallb (fun ch => negb (ch =? 0)%N) c.

(** [db.commit()]: flush and commit as one transaction.  When the flush
    fails nothing reaches the table and the pending objects stay in the
    session until it is rolled back.  The failures modelled are those of
    the storage layer; the commit of content that is not [nul_free] is
    outside the model. *)
Definition db_commit (env : Env) : M unit :=
  call env call_commit ;;
  fun s =>
    match flush env (table s) (unit_of_work s) with
    | Some rows => (Return tt, mkSession rows [] (calls s))
    | None => (Raise (ExcSQLAlchemyError IntegrityError), s)
    end.

(** [db.rollback()]: the pending objects are dropped, also when the
    rollback on the connection fails; its error is then raised. *)
Definition db_rollback (env : Env) : M unit :=
  fun s =>
    let s' := mkSession (table s) [] (calls s ++ [call_rollback]) in
    match fault env call_rollback with
    | Some e => (Raise (ExcSQLAlchemyError e), s')
    | None => (Return tt, s')
    end.

(** [db.refresh(obj)]: the object's attributes as the row of its primary
    key [i] has them (for an object just inserted, the [id] the flush gave
    it). *)
Definition db_refresh (env : Env) (i : UUID) : M Note.t :=
  call env call_refresh ;;
  fun s =>
    match find (has_id i) (table s) with
    | Some n => (Return n, s)
    | None => (Raise (ExcSQLAlchemyError InvalidRequestError), s)
    end.

(** [db.query(Note).filter(Note.id == i).first()] *)
Definition db_query_filter_first (env : Env) (i : UUID) : M (option Note.t) :=
  call env call_query ;;
  fun s => (Return (find (has_id i) (table s)), s).

(** What the store takes as OFFSET or LIMIT: a [bigint] that is not
    negative. *)
Definition row_count (v : Z) : bool :=
  ((0 <=? v) && (v <? 9223372036854775808))%Z.

(** [db.query(Note).offset(skip).limit(limit).all()]: no ORDER BY, so the
    rows come in the store's order, here the order of [table]; the store
    (PostgreSQL, config.py) rejects an OFFSET or LIMIT that is negative
    or does not fit its [bigint], 2^63 and above. *)
Definition db_query_offset_limit_all (env : Env) (skip limit : Z)
  : M (list Note.t) :=
  call env call_query ;;
  fun s =>
    if negb (row_count skip) || negb (row_count limit) then
      (Raise (ExcSQLAlchemyError DataError), s)
    else
      (Return (firstn (Z.to_nat limit) (skipn (Z.to_nat skip) (table s))), s).

(** [try: body except SQLAlchemyError as e: self.db.rollback(); raise e]:
    an error raised by the rollback inside the handler takes the place of
    [e]. *)
Definition try_except_rollback {A} (env : Env) (body : M A) : M A :=
  fun s =>
    match body s with
    | (Raise (ExcSQLAlchemyError e), s') =>
        (db_rollback env ;; raise (ExcSQLAlchemyError e)) s'
    | r => r
    end.

(** The error that comes out of that handler when the body raised [e]. *)
Definition reraised (env : Env) (e : SQLAlchemyError) : SQLAlchemyError :=
  match fault env call_rollback with
  | Some e' => e'
  | None => e
  end.

(* ================================================================= *)
(** ** app/services/note_service.py *)

Module NoteService.

Definition create_note (env : Env) (note_data : NoteCreate.t) : M Note.t :=
  try_except_rollback env (
    (* db_note = Note(content=note_data.content) *)
    db_add env (NoteCreate.content note_data) ;;
    db_commit env ;;
    db_note <- db_refresh env (uuid4 env) ;;
    ret db_note).

Definition get_note_by_id (env : Env) (note_id : UUID) : M (option Note.t) :=
  db_query_filter_first env note_id.

Definition default_skip : Z := 0.
Definition default_limit : Z := 100.

(** [get_all_notes(self, skip: int = 0, limit: int = 100)]; [None] is an
    argument left out. *)
Definition get_all_notes (env : Env) (skip limit : option Z)
  : M (list Note.t) :=
  let skip := match skip with Some v => v | None => default_skip end in
  let limit := match limit with Some v => v | None => default_limit end in
  db_query_offset_limit_all env skip limit.

Definition update_note (env : Env) (note_id : UUID) (note_data : NoteUpdate.t)
  : M (option Note.t) :=
  try_except_rollback env (
    db_note <- get_note_by_id env note_id ;;
    match db_note with
    | None => ret None
    | Some db_note =>
        db_note <- lift (Note.update_content db_note
                           (NoteUpdate.content note_data)) ;;
        db_modified db_note ;;
        db_commit env ;;
        db_note <- db_refresh env (Note.id db_note) ;;
        ret (Some db_note)
    end).

Definition delete_note (env : Env) (note_id : UUID) : M bool :=
  try_except_rollback env (
    db_note <- get_note_by_id env note_id ;;
    match db_note with
    | None => ret false
    | Some db_note =>
        db_delete env db_note ;;
        db_commit env ;;
        ret true
    end).

End NoteService.

(* ================================================================= *)
(** ** app/routers/web.py: the handlers that reach the service *)

(** What a handler answers: a rendered template with the entries of its
    context that depend on the data, a redirect, an [HTTPException], or
    the 422 of the framework when a [Form] constraint rejects the
    request. *)
Inductive ErrorText : Type :=
| error_of_validation (e : ErrorDetails)   (* [str(e)] of the schema's error *)
| error_of_value (msg : String.string)     (* [str(e)] of a plain ValueError *)
| error_text (msg : String.string).

Inductive Response : Type :=
| TemplateResponse (name : String.string) (notes : list Note.t)
    (note : option Note.t) (error : option ErrorText) (status_code : Z)
| RedirectResponse (url : String.string) (status_code : Z)
| HTTPException (status_code : Z)
| RequestValidationError.

Module Web.

(** [content: str = Form(..., min_length=1, max_length=10000)] *)
Definition form_content_ok (content : str) : bool :=
  ((1 <=? len content) && (len content <=? 10000))%Z.

(** [web_index]: the home page; it calls [get_all_notes()] with no
    argument. *)
Definition web_index (env : Env) : M Response :=
  fun s =>
    match NoteService.get_all_notes env None None s with
    | (Return notes, s') =>
        (Return (TemplateResponse "index.html" notes None None 200), s')
    | (Raise (ExcSQLAlchemyError _), s') => (Return (HTTPException 500), s')
    | (Raise e, s') => (Raise e, s')
    end.

(** [web_notes_create_submit]: the schema is built first, inside the
    [try]; its [ValidationError] is a [ValueError]. *)
Definition web_notes_create_submit (env : Env) (content : str) : M Response :=
  fun s =>
    if negb (form_content_ok content) then (Return RequestValidationError, s)
    else
      match NoteCreate.init (Some (strip content)) with
      | ValidationError e =>
          (Return (TemplateResponse "notes/create.html" [] None
                     (Some (error_of_validation e)) 400), s)
      | Valid note_data =>
          match NoteService.create_note env note_data s with
          | (Return _, s') => (Return (RedirectResponse "/" 303), s')
          | (Raise (ExcValueError m), s') =>
              (Return (TemplateResponse "notes/create.html" [] None
                         (Some (error_of_value m)) 400), s')
          | (Raise (ExcSQLAlchemyError _), s') =>
              (Return (TemplateResponse "notes/create.html" [] None
                         (Some (error_text
                                  "Failed to create note. Please try again."))
                         500), s')
          end
      end.

(** The two [except] branches of [web_notes_edit_submit] read the note
    again to show the form. *)
Definition edit_form_again (env : Env) (note_id : UUID)
  (error : ErrorText) (status_code : Z) : M Response :=
  note <- NoteService.get_note_by_id env note_id ;;
  ret (TemplateResponse "notes/edit.html" [] note (Some error) status_code).

Definition web_notes_edit_submit (env : Env) (note_id : UUID) (content : str)
  : M Response :=
  fun s =>
    if negb (form_content_ok content) then (Return RequestValidationError, s)
    else
      match NoteUpdate.init (Some (strip content)) with
      | ValidationError e =>
          edit_form_again env note_id (error_of_validation e) 400 s
      | Valid note_data =>
          match NoteService.update_note env note_id note_data s with
          | (Return None, s') => (Return (HTTPException 404), s')
          | (Return (Some _), s') => (Return (RedirectResponse "/" 303), s')
          | (Raise (ExcValueError m), s') =>
              edit_form_again env note_id (error_of_value m) 400 s'
          | (Raise (ExcSQLAlchemyError _), s') =>
              edit_form_again env note_id
                (error_text "Failed to update note. Please try again.") 500 s'
          end
      end.

(** [web_notes_create_form]: the empty form; the session is not used. *)
Definition web_notes_create_form : M Response :=
  ret (TemplateResponse "notes/create.html" [] None None 200).

(** [web_notes_edit_form]: the form with the note, 404 when there is
    none. *)
Definition web_notes_edit_form (env : Env) (note_id : UUID) : M Response :=
  fun s =>
    match NoteService.get_note_by_id env note_id s with
    | (Return None, s') => (Return (HTTPException 404), s')
    | (Return (Some note), s') =>
        (Return (TemplateResponse "notes/edit.html" [] (Some note) None 200),
         s')
    | (Raise (ExcSQLAlchemyError _), s') => (Return (HTTPException 500), s')
    | (Raise e, s') => (Raise e, s')
    end.

(** [web_notes_delete] *)
Definition web_notes_delete (env : Env) (note_id : UUID) : M Response :=
  fun s =>
    match NoteService.delete_note env note_id s with
    | (Return false, s') => (Return (HTTPException 404), s')
    | (Return true, s') => (Return (RedirectResponse "/" 303), s')
    | (Raise (ExcSQLAlchemyError _), s') => (Return (HTTPException 500), s')
    | (Raise e, s') => (Raise e, s')
    end.

End Web.

(* ================================================================= *)
(** ** The service as a transition system *)

(** The three operations that write. *)
Inductive Mutation : Type :=
| do_create (note_data : NoteCreate.t)
| do_update (note_id : UUID) (note_data : NoteUpdate.t)
| do_delete (note_id : UUID).

Definition forget {A} (r : Outcome A * Session) : Outcome unit * Session :=
  match r with
  | (Return _, s) => (Return tt, s)
  | (Raise e, s) => (Raise e, s)
  end.

Definition run (env : Env) (op : Mutation) (s : Session)
  : Outcome unit * Session :=
  match op with
  | do_create note_data => forget (NoteService.create_note env note_data s)
  | do_update note_id note_data =>
      forget (NoteService.update_note env note_id note_data s)
  | do_delete note_id => forget (NoteService.delete_note env note_id s)
  end.




(** An instance of a schema exists only as the result of its validation. *)
Definition instance_of_schema (note_data : NoteBase.t) : Prop :=
  exists raw, NoteBase.init (Some raw) = Valid note_data.



(** One call of the service, with any environment: the five operations. *)
Inductive step : Session -> Session -> Prop :=
| step_create env note_data s :
    instance_of_schema note_data ->
    step s (snd (NoteService.create_note env note_data s))
| step_get env note_id s :
    step s (snd (NoteService.get_note_by_id env note_id s))
| step_list env skip limit s :
    step s (snd (NoteService.get_all_notes env skip limit s))
| step_update env note_id note_data s :
    instance_of_schema note_data ->
    step s (snd (NoteService.update_note env note_id note_data s))
| step_delete env note_id s :
    step s (snd (NoteService.delete_note env note_id s)).

(** The sessions the service can be in, starting on an empty table. *)
Inductive reachable : Session -> Prop :=
| reachable_empty : reachable empty_session
| reachable_step s s' : reachable s -> step s s' -> reachable s'.

(** The content of a stored note as validation leaves it. *)
Definition normalized (c : str) : Prop :=
  c <> [] /\ whitespace_only c = false /\ strip c = c.

(** The primary key: no two rows with one [id]. *)
Definition pk_unique (rows : list Note.t) : Prop :=
  NoDup (map Note.id rows).

(** Every stored note has normalized content. *)
Definition all_normalized (rows : list Note.t) : Prop :=
  Forall (fun n => normalized (Note.content n)) rows.

Definition ends_with_rollback (s : Session) : Prop :=
  exists before, calls s = before ++ [call_rollback].

(* ================================================================= *)
(** ** Runs of the service against a clock *)

(** One call of the service in the environment [env]. *)
Inductive step_in (env : Env) : Session -> Session -> Prop :=
| step_in_create note_data s :
    instance_of_schema note_data ->
    step_in env s (snd (NoteService.create_note env note_data s))
| step_in_get note_id s :
    step_in env s (snd (NoteService.get_note_by_id env note_id s))
| step_in_list skip limit s :
    step_in env s (snd (NoteService.get_all_notes env skip limit s))
| step_in_update note_id note_data s :
    instance_of_schema note_data ->
    step_in env s (snd (NoteService.update_note env note_id note_data s))
| step_in_delete note_id s :
    step_in env s (snd (NoteService.delete_note env note_id s)).

(** The sessions reached from the empty table while the store's [now()]
    never goes back: [run_to t s] when the last call saw the time [t]. *)
Inductive run_to : DateTime -> Session -> Prop :=
| run_to_start t : run_to t empty_session
| run_to_step t env s s' :
    run_to t s -> (t <= now env)%Z -> step_in env s s' ->
    run_to (now env) s'.

(** No row was updated before it was created, nor after the time [t]. *)
Definition timestamps_ordered (t : DateTime) (rows : list Note.t) : Prop :=
  Forall (fun n => (Note.created_at n <= Note.updated_at n
                    /\ Note.updated_at n <= t)%Z) rows.

(** The id an operation is about: the one it draws, or the one it is
    given. *)
Definition target (env : Env) (op : Mutation) : UUID :=
  match op with
  | do_create _ => uuid4 env
  | do_update note_id _ | do_delete note_id => note_id
  end.

(** The ids of the rows, in the store's order. *)
Definition ids (rows : list Note.t) : list UUID := map Note.id rows.

(* ================================================================= *)
(** ** Data for the examples *)

(** An environment in which no call fails. *)
Definition quiet (i : UUID) (t : DateTime) : Env := mkEnv i t no_fault.

(** An environment in which the call [k] fails with [e]. *)
Definition failing (i : UUID) (t : DateTime) (k : Call) (e : SQLAlchemyError)
  : Env :=
  mkEnv i t (fun c => match c, k with
                      | call_add, call_add | call_delete, call_delete
                      | call_query, call_query | call_commit, call_commit
                      | call_refresh, call_refresh
                      | call_rollback, call_rollback => Some e
                      | _, _ => None
                      end).

(** [c * n] for a one-character string [c]. *)
Definition times (c : char) (n : Z) : str := repeat c (Z.to_nat n).

Definition buy_milk : Note.t :=
  Note.Build 7%N (of_string "Buy milk") 10%Z 10%Z.

(** A session on a table with the one row [buy_milk]. *)
Definition one_note : Session := mkSession [buy_milk] [] [].

Definition call_mum : Note.t :=
  Note.Build 9%N (of_string "Call mum") 12%Z 15%Z.

Definition two_notes : Session := mkSession [buy_milk; call_mum] [] [].

(* ================================================================= *)
(** * Facts *)

(** ** [strip] *)

Section StripFacts.

Lemma str_eqb_eq a b : PyStr.eqb a b = true <-> a = b.
Proof.
  unfold PyStr.eqb; destruct (list_eq_dec N.eq_dec a b); split; congruence.
Qed.

Lemma str_eqb_refl a : PyStr.eqb a a = true.
Proof. now apply str_eqb_eq. Qed.

Lemma lstrip_head_not_space s c t :
  lstrip s = c :: t -> isspace c = false.
Proof.
  induction s as [|a s IH]; simpl; [discriminate|].
  destruct (isspace a) eqn:Ha; [exact IH|].
  intros E; injection E as <- _; exact Ha.
Qed.

Lemma lstrip_fixed c t : isspace c = false -> lstrip (c :: t) = c :: t.
Proof. intros H; simpl; now rewrite H. Qed.

Lemma lstrip_idem s : lstrip (lstrip s) = lstrip s.
Proof.
  destruct (lstrip s) as [|c t] eqn:E; [reflexivity|].
  apply lstrip_fixed. eapply lstrip_head_not_space; eauto.
Qed.

Lemma rstrip_cons_not_space c t :
  isspace c = false -> exists r, rstrip (c :: t) = c :: r.
Proof.
  intros H; simpl. destruct (rstrip t) as [|x r].
  - rewrite H; eauto.
  - eauto.
Qed.

Lemma rstrip_idem s : rstrip (rstrip s) = rstrip s.
Proof.
  induction s as [|c t IH]; simpl; [reflexivity|].
  destruct (rstrip t) as [|x r] eqn:E.
  - destruct (isspace c) eqn:Hc; simpl; [reflexivity|]. now rewrite Hc.
  - simpl in *. rewrite IH. reflexivity.
Qed.

(** Stripping is idempotent: a stripped string is its own stripped
    form. *)
Lemma strip_idem s : strip (strip s) = strip s.
Proof.
  unfold strip.
  destruct (lstrip s) as [|c t] eqn:E; [reflexivity|].
  pose proof (lstrip_head_not_space _ _ _ E) as Hc.
  destruct (rstrip_cons_not_space c t Hc) as [r Hr].
  rewrite Hr, (lstrip_fixed c r Hc), <- Hr. apply rstrip_idem.
Qed.

Lemma lstrip_length s : (List.length (lstrip s) <= List.length s)%nat.
Proof.
  induction s as [|c t IH]; simpl; [lia|].
  destruct (isspace c); simpl; lia.
Qed.

Lemma rstrip_length s : (List.length (rstrip s) <= List.length s)%nat.
Proof.
  induction s as [|c t IH]; simpl; [lia|].
  destruct (rstrip t); [destruct (isspace c)|]; simpl in *; lia.
Qed.

Lemma strip_len s : (len (strip s) <= len s)%Z.
Proof.
  unfold len, strip.
  pose proof (rstrip_length (lstrip s)). pose proof (lstrip_length s). lia.
Qed.

Lemma lstrip_nil_iff s : lstrip s = [] <-> whitespace_only s = true.
Proof.
  unfold whitespace_only.
  induction s as [|c t IH]; simpl; [tauto|].
  destruct (isspace c); simpl; [exact IH|]. split; discriminate.
Qed.

Lemma rstrip_nil_iff s : rstrip s = [] <-> whitespace_only s = true.
Proof.
  unfold whitespace_only.
  induction s as [|c t IH]; simpl; [tauto|].
  destruct (rstrip t) as [|x r].
  - destruct (isspace c); simpl; [tauto|]. split; discriminate.
  - split; [discriminate|]. intros H. apply andb_true_iff in H.
    destruct H as [_ H]. apply IH in H. discriminate.
Qed.

Lemma whitespace_only_lstrip s :
  whitespace_only (lstrip s) = true -> whitespace_only s = true.
Proof.
  unfold whitespace_only.
  induction s as [|c t IH]; simpl; [tauto|].
  destruct (isspace c) eqn:Hc; simpl; [exact IH|]. now rewrite Hc.
Qed.

(** A string strips to the empty string exactly when it is empty or
    whitespace only. *)
Lemma strip_nil_iff s : strip s = [] <-> whitespace_only s = true.
Proof.
  unfold strip. rewrite rstrip_nil_iff. split.
  - apply whitespace_only_lstrip.
  - intros H. apply lstrip_nil_iff in H. now rewrite H.
Qed.

(** What [lstrip] and [rstrip] remove is whitespace, and what they keep
    is a contiguous piece of the string. *)
Lemma lstrip_split s :
  exists l, s = l ++ lstrip s /\ whitespace_only l = true.
Proof.
  unfold whitespace_only.
  induction s as [|c t [l [E W]]]; simpl.
  - exists []; auto.
  - destruct (isspace c) eqn:Hc.
    + exists (c :: l); simpl. rewrite Hc, W, <- E. auto.
    + exists []; auto.
Qed.

Lemma rstrip_split s :
  exists r, s = rstrip s ++ r /\ whitespace_only r = true.
Proof.
  unfold whitespace_only.
  induction s as [|c t [r [E W]]]; simpl.
  - exists []; auto.
  - destruct (rstrip t) as [|x u] eqn:Et; simpl in E.
    + destruct (isspace c) eqn:Hc.
      * exists (c :: r). simpl. rewrite Hc, W. subst t. auto.
      * exists r. simpl. subst t. auto.
    + exists r. simpl. rewrite <- E. auto.
Qed.

Lemma strip_split s :
  exists l r, s = l ++ strip s ++ r
              /\ whitespace_only l = true /\ whitespace_only r = true.
Proof.
  destruct (lstrip_split s) as [l [El Wl]].
  destruct (rstrip_split (lstrip s)) as [r [Er Wr]].
  exists l, r. unfold strip. rewrite <- Er. auto.
Qed.

Lemma rstrip_last_not_space s c :
  last (rstrip s) c = c \/ isspace (last (rstrip s) c) = false.
Proof.
  induction s as [|a t IH]; simpl; [auto|].
  destruct (rstrip t) as [|x u] eqn:Et.
  - destruct (isspace a) eqn:Ha; simpl; auto.
  - change (last (a :: x :: u) c) with (last (x :: u) c). exact IH.
Qed.

(** The ends of a non-empty stripped string are not whitespace. *)
Lemma strip_ends s c t :
  strip s = c :: t ->
  isspace c = false /\ isspace (last (c :: t) c) = false.
Proof.
  unfold strip. intros E.
  destruct (lstrip s) as [|a u] eqn:El; [discriminate|].
  pose proof (lstrip_head_not_space _ _ _ El) as Ha.
  destruct (rstrip_cons_not_space a u Ha) as [r Hr].
  assert (a = c) by congruence. subst a. split; [exact Ha|].
  destruct (rstrip_last_not_space (c :: u) c) as [H|H];
    rewrite E in H; [rewrite H; exact Ha | exact H].
Qed.

Lemma isspace_not_surrogate c : isspace c = true -> is_surrogate c = false.
Proof.
  unfold isspace, is_surrogate. intros H.
  repeat rewrite ?orb_true_iff, ?andb_true_iff, ?N.leb_le, ?N.eqb_eq in H.
  apply andb_false_iff. destruct (N.leb_spec 55296 c) as [L|L]; [|now left].
  exfalso. lia.
Qed.

Lemma whitespace_only_well_formed s :
  whitespace_only s = true -> well_formed s = true.
Proof.
  unfold whitespace_only, well_formed.
  induction s as [|c t IH]; simpl; [reflexivity|].
  intros H. apply andb_true_iff in H. destruct H as [Hc Ht].
  now rewrite (isspace_not_surrogate c Hc), IH.
Qed.

Lemma well_formed_app a b :
  well_formed (a ++ b) = well_formed a && well_formed b.
Proof. unfold well_formed. apply forallb_app. Qed.

(** Stripping removes no surrogate and adds none. *)
Lemma well_formed_strip s : well_formed (strip s) = well_formed s.
Proof.
  destruct (strip_split s) as [l [r [E [Wl Wr]]]].
  rewrite E at 2. rewrite !well_formed_app.
  rewrite (whitespace_only_well_formed l Wl), (whitespace_only_well_formed r Wr).
  simpl. now rewrite andb_true_r.
Qed.

End StripFacts.

(* ================================================================= *)
(** ** The validation schema *)

Section Validation.

Lemma truthy_false_iff (s : str) : truthy s = false <-> s = [].
Proof. destruct s; simpl; split; congruence. Qed.

Lemma strip_nonempty_nonempty (s : str) : strip s <> [] -> s <> [].
Proof. intros H E; subst s; apply H; reflexivity. Qed.

Lemma len_nonneg (s : str) : (0 <= len s)%Z.
Proof. unfold len; lia. Qed.

(** The field validator on its own: it accepts every string whose
    stripped form is non-empty and has at most 5000 characters, and gives
    the stripped form. *)
Lemma validate_content_accepts (v : str) :
  strip v <> [] -> (len (strip v) <= 5000)%Z ->
  NoteBase.validate_content v = Valid (strip v).
Proof.
  intros Hne Hlen. unfold NoteBase.validate_content.
  destruct v as [|c t]; [exfalso; apply Hne; reflexivity|].
  destruct (strip (c :: t)) as [|c' t'] eqn:E; [congruence|].
  simpl truthy. simpl.
  destruct (len (c' :: t') >? 5000)%Z eqn:G; [|reflexivity].
  apply Z.gtb_lt in G. lia.
Qed.

Lemma validate_content_empty (v : str) :
  whitespace_only v = true ->
  NoteBase.validate_content v = ValidationError (value_error NoteBase.msg_empty).
Proof.
  intros W. apply strip_nil_iff in W. unfold NoteBase.validate_content.
  rewrite W. simpl. now rewrite orb_true_r.
Qed.

Lemma validate_content_too_long (v : str) :
  (len (strip v) > 5000)%Z ->
  NoteBase.validate_content v
  = ValidationError (value_error NoteBase.msg_too_long).
Proof.
  intros L. unfold NoteBase.validate_content.
  destruct v as [|c t]; [cbn in L; lia|].
  destruct (strip (c :: t)) as [|c' t'] eqn:E; [cbn in L; lia|].
  simpl truthy. simpl.
  destruct (len (c' :: t') >? 5000)%Z eqn:G; [reflexivity|].
  rewrite Z.gtb_ltb in G. apply Z.ltb_ge in G. lia.
Qed.

(** Whatever the schema accepts is the stripped input, it is normalized,
    and the input had between 1 and 5000 characters. *)
Lemma validate_valid_inv (s : str) (note_data : NoteBase.t) :
  validate s = Valid note_data ->
  NoteBase.content note_data = strip s
  /\ strip s <> [] /\ (1 <= len s <= 5000)%Z.
Proof.
  unfold validate, NoteBase.init, NoteBase.field_constraints,
    NoteBase.min_length, NoteBase.max_length.
  destruct (well_formed s); [|discriminate]. cbn [negb].
  destruct (len s <? 1)%Z eqn:L1; [discriminate|].
  destruct (len s >? 5000)%Z eqn:L2; [discriminate|].
  apply Z.ltb_ge in L1. rewrite Z.gtb_ltb in L2. apply Z.ltb_ge in L2.
  unfold NoteBase.validate_content.
  destruct (negb (truthy s) || negb (truthy (strip s))) eqn:T; [discriminate|].
  apply orb_false_iff in T. destruct T as [_ T].
  apply negb_false_iff in T.
  destruct (len (strip s) >? 5000)%Z; [discriminate|].
  intros E; injection E as <-. simpl. repeat split; try lia.
  intros N; rewrite N in T; discriminate.
Qed.

(** What the schema accepts holds no surrogate. *)
Lemma validate_valid_well_formed (s : str) (note_data : NoteBase.t) :
  validate s = Valid note_data -> well_formed s = true.
Proof.
  unfold validate, NoteBase.init, NoteBase.field_constraints.
  destruct (well_formed s); [reflexivity | discriminate].
Qed.

(** What holds a surrogate is rejected before anything else is looked
    at. *)
Lemma validate_ill_formed (s : str) :
  well_formed s = false -> validate s = ValidationError string_unicode.
Proof.
  intros W. unfold validate, NoteBase.init, NoteBase.field_constraints.
  now rewrite W.
Qed.

Lemma normalized_strip (s : str) : strip s <> [] -> normalized (strip s).
Proof.
  intros H. repeat split; [exact H| |apply strip_idem].
  destruct (whitespace_only (strip s)) eqn:W; [|reflexivity].
  apply strip_nil_iff in W. rewrite strip_idem in W. contradiction.
Qed.

Lemma instance_normalized (note_data : NoteBase.t) :
  instance_of_schema note_data -> normalized (NoteBase.content note_data).
Proof.
  intros [raw H]. apply validate_valid_inv in H. destruct H as [-> [H _]].
  now apply normalized_strip.
Qed.

(** C1, as stated, fails: 5000 spaces followed by ["a"] strip to ["a"],
    yet the schema rejects the string for its 5001 characters before the
    validator runs. *)
Lemma validate_accepts_counterexample :
  let s := times 32%N 5000 ++ [97%N] in
  strip s = [97%N]
  /\ strip s <> []
  /\ (len (strip s) <= 5000)%Z
  /\ validate s = ValidationError (string_too_long 5000).
Proof.
  vm_compute. repeat split; try reflexivity; discriminate.
Qed.

(** C1 (amended): for every content string [s] of at most 5000 characters
    that holds no surrogate and whose stripped form is non-empty,
    [validate s] succeeds and returns [s.strip()]; the result is the piece
    of [s] between a leading and a trailing run of whitespace, so
    whitespace inside it is kept as it is. *)
Theorem validate_accepts (s : str) :
  strip s <> [] -> (len s <= 5000)%Z -> well_formed s = true ->
  validate s = Valid (NoteBase.Build (strip s))
  /\ exists l r, s = l ++ strip s ++ r
                 /\ whitespace_only l = true /\ whitespace_only r = true.
Proof.
  intros Hne Hlen Hwf. split; [|apply strip_split].
  unfold validate, NoteBase.init, NoteBase.field_constraints,
    NoteBase.min_length, NoteBase.max_length.
  rewrite Hwf. cbn [negb].
  assert (s <> []) as Hs by now apply strip_nonempty_nonempty.
  assert (1 <= len s)%Z as H1.
  { destruct s; [congruence|]. unfold len; simpl; lia. }
  destruct (len s <? 1)%Z eqn:L1; [apply Z.ltb_lt in L1; lia|].
  destruct (len s >? 5000)%Z eqn:L2; [apply Z.gtb_lt in L2; lia|].
  rewrite validate_content_accepts; auto.
  pose proof (strip_len s). lia.
Qed.

Lemma validate_accepts_witness :
  validate (of_string "  Buy  milk ")
  = Valid (NoteBase.Build (of_string "Buy  milk")).
Proof.
  refine (proj1 (validate_accepts (of_string "  Buy  milk ") _ _ _)).
  - vm_compute; discriminate.
  - vm_compute; discriminate.
  - reflexivity.
Defined.

(** C2, as stated, fails: 5001 spaces are whitespace only, and the schema
    rejects them as too long, not as empty. *)
Lemma validate_rejects_counterexample :
  let s := times 32%N 5001 in
  whitespace_only s = true
  /\ validate s = ValidationError (string_too_long 5000)
  /\ EmptyContentError (string_too_long 5000) = false.
Proof.
  vm_compute. repeat split; reflexivity.
Qed.

(** C2 (amended): [validate] fails with the empty-content error for every
    input of at most 5000 characters that is empty or whitespace only, and
    with the too-long error for every input longer than 5000 characters
    that holds no surrogate, hence for every such input whose stripped
    length exceeds 5000; an input that holds a surrogate fails as
    unreadable text, whatever its length.  The create handler then answers
    400 and leaves the session as it was, no method of it called, and the
    edit handler only reads the note again for the form. *)
Theorem validate_rejects (s : str) (env : Env) (db : Session) (note_id : UUID) :
  (whitespace_only s = true -> (len s <= 5000)%Z ->
   exists e, validate s = ValidationError e /\ EmptyContentError e = true)
  /\ ((len s > 5000)%Z -> well_formed s = true ->
      validate s = ValidationError (string_too_long 5000))
  /\ ((len (strip s) > 5000)%Z -> well_formed s = true ->
      exists e, validate s = ValidationError e /\ TooLongError e = true)
  /\ (well_formed s = false -> validate s = ValidationError string_unicode)
  /\ (forall e, Web.form_content_ok s = true ->
        validate (strip s) = ValidationError e ->
        Web.web_notes_create_submit env s db
        = (Return (TemplateResponse "notes/create.html" [] None
                     (Some (error_of_validation e)) 400), db)
        /\ table (snd (Web.web_notes_edit_submit env note_id s db)) = table db
        /\ unit_of_work (snd (Web.web_notes_edit_submit env note_id s db))
           = unit_of_work db
        /\ calls (snd (Web.web_notes_edit_submit env note_id s db))
           = calls db ++ [call_query]).
Proof.
  assert ((len s > 5000)%Z -> well_formed s = true ->
          validate s = ValidationError (string_too_long 5000)) as Hlong.
  { intros L W. unfold validate, NoteBase.init, NoteBase.field_constraints,
      NoteBase.min_length, NoteBase.max_length. rewrite W. cbn [negb].
    destruct (len s <? 1)%Z eqn:L1; [apply Z.ltb_lt in L1; lia|].
    destruct (len s >? 5000)%Z eqn:L2; [reflexivity|].
    rewrite Z.gtb_ltb in L2. apply Z.ltb_ge in L2. lia. }
  split; [|split; [exact Hlong|split; [|split]]].
  - intros W L.
    unfold validate, NoteBase.init, NoteBase.field_constraints,
      NoteBase.min_length, NoteBase.max_length.
    rewrite (whitespace_only_well_formed s W). cbn [negb].
    destruct (len s <? 1)%Z eqn:L1; [eexists; split; reflexivity|].
    destruct (len s >? 5000)%Z eqn:L2; [apply Z.gtb_lt in L2; lia|].
    rewrite validate_content_empty by exact W.
    eexists; split; reflexivity.
  - intros L W. pose proof (strip_len s).
    rewrite Hlong by (auto; lia). eexists; split; reflexivity.
  - apply validate_ill_formed.
  - intros e F V. unfold validate in V.
    unfold Web.web_notes_create_submit, Web.web_notes_edit_submit,
      NoteCreate.init, NoteUpdate.init.
    rewrite F, V. simpl. split; [reflexivity|].
    unfold Web.edit_form_again, NoteService.get_note_by_id,
      db_query_filter_first, bind, call, ret.
    destruct (fault env call_query); simpl; auto.
Qed.

Lemma validate_rejects_witness :
  (exists e, validate (of_string "   ") = ValidationError e
             /\ EmptyContentError e = true)
  /\ validate (times 120%N 5001) = ValidationError (string_too_long 5000).
Proof.
  split.
  - refine (proj1 (validate_rejects (of_string "   ")
                     (mkEnv 1%N 0%Z no_fault) empty_session 1%N) _ _).
    + reflexivity.
    + vm_compute; discriminate.
  - refine (proj1 (proj2 (validate_rejects (times 120%N 5001)
                     (mkEnv 1%N 0%Z no_fault) empty_session 1%N)) _ _).
    + vm_compute; reflexivity.
    + vm_compute; reflexivity.
Defined.

End Validation.

(* ================================================================= *)
(** ** The session and the table *)

Section Rows.

Lemma has_id_true (i : UUID) (n : Note.t) : has_id i n = true <-> Note.id n = i.
Proof. unfold has_id. apply N.eqb_eq. Qed.

Lemma has_id_false (i : UUID) (n : Note.t) :
  has_id i n = false <-> Note.id n <> i.
Proof. unfold has_id. apply N.eqb_neq. Qed.

Lemma find_has_id (i : UUID) (rows : list Note.t) (n : Note.t) :
  find (has_id i) rows = Some n -> Note.id n = i /\ In n rows.
Proof.
  intros H. apply find_some in H. destruct H as [H1 H2].
  split; [now apply has_id_true | exact H1].
Qed.

Lemma find_none_existsb (i : UUID) (rows : list Note.t) :
  existsb (has_id i) rows = false <-> find (has_id i) rows = None.
Proof.
  induction rows as [|n rows IH]; simpl; [tauto|].
  destruct (has_id i n); simpl; [split; discriminate | exact IH].
Qed.

Lemma find_none_not_in (i : UUID) (rows : list Note.t) :
  find (has_id i) rows = None <-> ~ In i (map Note.id rows).
Proof.
  induction rows as [|n rows IH]; simpl; [tauto|].
  destruct (has_id i n) eqn:E.
  - apply has_id_true in E. split; [discriminate|]. intros H; exfalso; auto.
  - apply has_id_false in E. rewrite IH. tauto.
Qed.

Lemma find_app_fresh (i : UUID) (rows : list Note.t) (n : Note.t) :
  find (has_id i) rows = None -> Note.id n = i ->
  find (has_id i) (rows ++ [n]) = Some n.
Proof.
  intros H E. induction rows as [|m rows IH]; simpl in *.
  - apply has_id_true in E. now rewrite E.
  - destruct (has_id i m); [discriminate|]. now apply IH.
Qed.

(** A map that keeps every [id] commutes with the lookup by [id]. *)
Lemma find_map_same_id (i : UUID) (f : Note.t -> Note.t) (rows : list Note.t) :
  (forall n, Note.id (f n) = Note.id n) ->
  find (has_id i) (map f rows) = option_map f (find (has_id i) rows).
Proof.
  intros Hf. induction rows as [|n rows IH]; simpl; [reflexivity|].
  unfold has_id at 1. rewrite Hf. fold (has_id i n).
  destruct (has_id i n); [reflexivity | exact IH].
Qed.

Lemma find_filter_out (i : UUID) (rows : list Note.t) :
  find (has_id i) (filter (fun n => negb (has_id i n)) rows) = None.
Proof.
  induction rows as [|n rows IH]; simpl; [reflexivity|].
  destruct (has_id i n) eqn:E; simpl; [exact IH|]. now rewrite E.
Qed.

Lemma map_id_same (f : Note.t -> Note.t) (rows : list Note.t) :
  (forall n, Note.id (f n) = Note.id n) ->
  map Note.id (map f rows) = map Note.id rows.
Proof.
  intros Hf. rewrite map_map. apply map_ext. exact Hf.
Qed.

Lemma pk_unique_filter (p : Note.t -> bool) (rows : list Note.t) :
  pk_unique rows -> pk_unique (filter p rows).
Proof.
  unfold pk_unique. induction rows as [|n rows IH]; simpl; [auto|].
  intros H. inversion H as [|? ? Hn Hr]; subst.
  destruct (p n); simpl; [|auto].
  constructor; [|auto].
  intros Hin. apply Hn. apply in_map_iff in Hin.
  destruct Hin as [m [Hm Hin]]. apply filter_In in Hin.
  apply in_map_iff. exists m. tauto.
Qed.

Lemma pk_unique_app_fresh (rows : list Note.t) (n : Note.t) :
  pk_unique rows -> find (has_id (Note.id n)) rows = None ->
  pk_unique (rows ++ [n]).
Proof.
  unfold pk_unique. intros H F. apply find_none_not_in in F.
  rewrite map_app. simpl.
  apply NoDup_app; [exact H | repeat constructor; auto |].
  intros a Ha [<- | []]. contradiction.
Qed.

End Rows.

(* ================================================================= *)
(** ** The service, path by path *)

Section Paths.

Variable env : Env.

Local Ltac unfold_service :=
  unfold NoteService.create_note, NoteService.update_note,
    NoteService.delete_note, NoteService.get_note_by_id,
    NoteService.get_all_notes, try_except_rollback,
    db_add, db_delete, db_modified, db_commit, db_refresh, db_rollback,
    db_query_filter_first, db_query_offset_limit_all,
    bind, call, ret, raise, lift, record_call, register.

Local Ltac tidy := simpl; repeat rewrite <- app_assoc; simpl.

Local Ltac rolls_back :=
  unfold reraised; destruct (fault env call_rollback); tidy; reflexivity.

Lemma updated_id (n : Note.t) (c : str) : Note.id (updated env n c) = Note.id n.
Proof. unfold updated. destruct (PyStr.eqb _ _); reflexivity. Qed.

Lemma updated_created_at (n : Note.t) (c : str) :
  Note.created_at (updated env n c) = Note.created_at n.
Proof. unfold updated. destruct (PyStr.eqb _ _); reflexivity. Qed.

Lemma updated_content (n : Note.t) (c : str) : Note.content (updated env n c) = c.
Proof.
  unfold updated. destruct (PyStr.eqb _ _) eqn:E; [|reflexivity].
  now apply str_eqb_eq in E.
Qed.

Lemma find_app_or {A} (p : A -> bool) (a b : list A) :
  find p (a ++ b)
  = match find p a with Some x => Some x | None => find p b end.
Proof.
  induction a as [|x a IH]; simpl; [reflexivity|].
  destruct (p x); [reflexivity | exact IH].
Qed.

Lemma find_filter_same {A} (p : A -> bool) (l : list A) :
  find p (filter p l) = find p l.
Proof.
  induction l as [|x l IH]; simpl; [reflexivity|].
  destruct (p x) eqn:E; simpl; [now rewrite E | exact IH].
Qed.

Lemma filter_split_perm {A} (p : A -> bool) (l : list A) :
  Permutation (filter (fun x => negb (p x)) l ++ filter p l) l.
Proof.
  induction l as [|x l IH]; simpl; [constructor|].
  destruct (p x); simpl.
  - apply Permutation_sym, Permutation_cons_app, Permutation_sym, IH.
  - now constructor.
Qed.

(** No row of the table has the content changed by an update that makes
    no net change. *)
Lemma unchanged_updated (i : UUID) (c : str) (rows : list Note.t) (n : Note.t) :
  existsb (changed i c) rows = false -> In n rows -> has_id i n = true ->
  updated env n c = n.
Proof.
  intros X Hn Hid. unfold updated.
  destruct (PyStr.eqb (Note.content n) c) eqn:E; [reflexivity|].
  assert (existsb (changed i c) rows = true) as Y.
  { apply existsb_exists. exists n. split; [exact Hn|].
    unfold changed. now rewrite Hid, E. }
  congruence.
Qed.

(** An update keeps the ids, not their order. *)
Lemma update_rows_id (i : UUID) (c : str) (rows : list Note.t) :
  Permutation (map Note.id (update_rows env i c rows)) (map Note.id rows).
Proof.
  unfold update_rows. destruct (existsb (changed i c) rows); [|reflexivity].
  rewrite map_app, map_map.
  rewrite (map_ext (fun n => Note.id (updated env n c)) Note.id)
    by (intros n; apply updated_id).
  rewrite <- map_app. apply Permutation_map, filter_split_perm.
Qed.

Lemma update_rows_length (i : UUID) (c : str) (rows : list Note.t) :
  List.length (update_rows env i c rows) = List.length rows.
Proof.
  rewrite <- (length_map Note.id), <- (length_map Note.id rows).
  apply Permutation_length, update_rows_id.
Qed.

Lemma find_update_rows (i : UUID) (c : str) (rows : list Note.t) (n : Note.t) :
  find (has_id i) rows = Some n ->
  find (has_id i) (update_rows env i c rows) = Some (updated env n c).
Proof.
  intros F. unfold update_rows.
  destruct (existsb (changed i c) rows) eqn:X.
  - rewrite find_app_or, find_filter_out.
    rewrite find_map_same_id by (intros m; apply updated_id).
    now rewrite find_filter_same, F.
  - rewrite F. f_equal. symmetry.
    destruct (find_has_id _ _ _ F) as [Hid Hin].
    apply (unchanged_updated i c rows n X Hin). now apply has_id_true.
Qed.

(** The rows after an update: those there were, and the new versions of
    rows of the id. *)
Lemma update_rows_in (i : UUID) (c : str) (rows : list Note.t) (m : Note.t) :
  In m (update_rows env i c rows) ->
  In m rows
  \/ exists n, In n rows /\ has_id i n = true /\ m = updated env n c.
Proof.
  unfold update_rows. destruct (existsb (changed i c) rows); [|now left].
  intros H. apply in_app_or in H. destruct H as [H|H].
  - apply filter_In in H. now left.
  - apply in_map_iff in H. destruct H as [n [E H]].
    apply filter_In in H. right. exists n. intuition.
Qed.

Lemma update_rows_keeps (i : UUID) (c : str) (rows : list Note.t) (m : Note.t) :
  In m rows -> has_id i m = false -> In m (update_rows env i c rows).
Proof.
  intros Hm Hid. unfold update_rows.
  destruct (existsb (changed i c) rows); [|exact Hm].
  apply in_or_app. left. apply filter_In. now rewrite Hid.
Qed.

(** After an update every row of the id holds the content. *)
Lemma update_rows_content (i : UUID) (c : str) (rows : list Note.t) (m : Note.t) :
  In m (update_rows env i c rows) -> has_id i m = true -> Note.content m = c.
Proof.
  unfold update_rows. destruct (existsb (changed i c) rows) eqn:X.
  - intros H Hid. apply in_app_or in H. destruct H as [H|H].
    + apply filter_In in H. destruct H as [_ H]. rewrite Hid in H. discriminate.
    + apply in_map_iff in H. destruct H as [n [<- _]]. apply updated_content.
  - intros H Hid. rewrite <- (unchanged_updated i c rows m X H Hid).
    apply updated_content.
Qed.

(** [create_note] on a session with nothing pending: one path per call
    that can fail, in the order of the calls. *)
Lemma create_note_paths (note_data : NoteCreate.t) (s : Session) :
  unit_of_work s = [] ->
  let n := inserted env (NoteCreate.content note_data) in
  NoteService.create_note env note_data s =
  match fault env call_add with
  | Some e =>
      (Raise (ExcSQLAlchemyError (reraised env e)),
       mkSession (table s) [] (calls s ++ [call_add; call_rollback]))
  | None =>
      match fault env call_commit with
      | Some e =>
          (Raise (ExcSQLAlchemyError (reraised env e)),
           mkSession (table s) []
             (calls s ++ [call_add; call_commit; call_rollback]))
      | None =>
          if existsb (has_id (uuid4 env)) (table s) then
            (Raise (ExcSQLAlchemyError (reraised env IntegrityError)),
             mkSession (table s) []
               (calls s ++ [call_add; call_commit; call_rollback]))
          else
            match fault env call_refresh with
            | Some e =>
                (Raise (ExcSQLAlchemyError (reraised env e)),
                 mkSession (table s ++ [n]) []
                   (calls s ++ [call_add; call_commit; call_refresh;
                                call_rollback]))
            | None =>
                (Return n,
                 mkSession (table s ++ [n]) []
                   (calls s ++ [call_add; call_commit; call_refresh]))
            end
      end
  end.
Proof.
  intros U n. unfold_service.
  destruct (fault env call_add); [rolls_back|].
  destruct (fault env call_commit); [rolls_back|].
  simpl. rewrite U. simpl.
  destruct (existsb (has_id (uuid4 env)) (table s)) eqn:X;
    [rolls_back|].
  apply find_none_existsb in X.
  destruct (fault env call_refresh); [rolls_back|].
  simpl. fold n.
  pose proof (find_app_fresh (uuid4 env) (table s) n X eq_refl) as F.
  rewrite F.
  tidy. reflexivity.
Qed.

Lemma get_note_by_id_paths (note_id : UUID) (s : Session) :
  NoteService.get_note_by_id env note_id s =
  match fault env call_query with
  | Some e => (Raise (ExcSQLAlchemyError e), record_call call_query s)
  | None =>
      (Return (find (has_id note_id) (table s)), record_call call_query s)
  end.
Proof.
  unfold_service. destruct (fault env call_query); reflexivity.
Qed.

(** [update_note] on a session with nothing pending. *)
Lemma update_note_paths (note_id : UUID) (note_data : NoteUpdate.t)
  (s : Session) :
  unit_of_work s = [] ->
  let c := NoteUpdate.content note_data in
  NoteService.update_note env note_id note_data s =
  match fault env call_query with
  | Some e =>
      (Raise (ExcSQLAlchemyError (reraised env e)),
       mkSession (table s) [] (calls s ++ [call_query; call_rollback]))
  | None =>
      match find (has_id note_id) (table s) with
      | None =>
          (Return None, mkSession (table s) [] (calls s ++ [call_query]))
      | Some n =>
          if negb (truthy c) || negb (truthy (strip c)) then
            (Raise (ExcValueError Note.msg_empty),
             mkSession (table s) [] (calls s ++ [call_query]))
          else
            match fault env call_commit with
            | Some e =>
                (Raise (ExcSQLAlchemyError (reraised env e)),
                 mkSession (table s) []
                   (calls s ++ [call_query; call_commit; call_rollback]))
            | None =>
                let rows := update_rows env note_id (strip c) (table s) in
                match fault env call_refresh with
                | Some e =>
                    (Raise (ExcSQLAlchemyError (reraised env e)),
                     mkSession rows []
                       (calls s ++ [call_query; call_commit; call_refresh;
                                    call_rollback]))
                | None =>
                    (Return (Some (updated env n (strip c))),
                     mkSession rows []
                       (calls s ++ [call_query; call_commit; call_refresh]))
                end
            end
      end
  end.
Proof.
  intros U c. unfold_service.
  destruct (fault env call_query); [rolls_back|].
  simpl. destruct (find (has_id note_id) (table s)) as [n|] eqn:F;
    [|simpl; now rewrite U].
  unfold Note.update_content. fold c.
  destruct (negb (truthy c) || negb (truthy (strip c)));
    [simpl; now rewrite U|].
  simpl. destruct (find_has_id _ _ _ F) as [Hid _]. rewrite Hid.
  destruct (fault env call_commit); [rolls_back|].
  simpl. rewrite U. simpl.
  destruct (fault env call_refresh); [rolls_back|].
  simpl. pose proof (find_update_rows note_id (strip c) _ _ F) as R.
  rewrite R. tidy. reflexivity.
Qed.

(** [delete_note] on a session with nothing pending. *)
Lemma delete_note_paths (note_id : UUID) (s : Session) :
  unit_of_work s = [] ->
  NoteService.delete_note env note_id s =
  match fault env call_query with
  | Some e =>
      (Raise (ExcSQLAlchemyError (reraised env e)),
       mkSession (table s) [] (calls s ++ [call_query; call_rollback]))
  | None =>
      match find (has_id note_id) (table s) with
      | None =>
          (Return false, mkSession (table s) [] (calls s ++ [call_query]))
      | Some n =>
          match fault env call_delete with
          | Some e =>
              (Raise (ExcSQLAlchemyError (reraised env e)),
               mkSession (table s) []
                 (calls s ++ [call_query; call_delete; call_rollback]))
          | None =>
              match fault env call_commit with
              | Some e =>
                  (Raise (ExcSQLAlchemyError (reraised env e)),
                   mkSession (table s) []
                     (calls s ++ [call_query; call_delete; call_commit;
                                  call_rollback]))
              | None =>
                  (Return true,
                   mkSession (delete_rows note_id (table s)) []
                     (calls s ++ [call_query; call_delete; call_commit]))
              end
          end
      end
  end.
Proof.
  intros U. unfold_service.
  destruct (fault env call_query); [rolls_back|].
  simpl. destruct (find (has_id note_id) (table s)) as [n|] eqn:F;
    [|simpl; now rewrite U].
  destruct (find_has_id _ _ _ F) as [Hid _].
  destruct (fault env call_delete); [rolls_back|].
  destruct (fault env call_commit); [rolls_back|].
  simpl. rewrite U, Hid. tidy. reflexivity.
Qed.

Lemma get_all_notes_paths (skip limit : option Z) (s : Session) :
  let skip' := match skip with Some v => v | None => 0%Z end in
  let limit' := match limit with Some v => v | None => 100%Z end in
  NoteService.get_all_notes env skip limit s =
  match fault env call_query with
  | Some e => (Raise (ExcSQLAlchemyError e), record_call call_query s)
  | None =>
      if negb (row_count skip') || negb (row_count limit') then
        (Raise (ExcSQLAlchemyError DataError), record_call call_query s)
      else
        (Return (firstn (Z.to_nat limit') (skipn (Z.to_nat skip') (table s))),
         record_call call_query s)
  end.
Proof.
  intros skip' limit'. unfold_service.
  unfold NoteService.default_skip, NoteService.default_limit.
  fold skip' limit'.
  destruct (fault env call_query); [reflexivity|]. simpl.
  destruct (negb (row_count skip') || negb (row_count limit')); reflexivity.
Qed.

Lemma row_count_iff (v : Z) :
  row_count v = true <-> (0 <= v < 9223372036854775808)%Z.
Proof.
  unfold row_count. rewrite andb_true_iff, Z.leb_le, Z.ltb_lt. tauto.
Qed.

End Paths.

(* ================================================================= *)
(** ** Create, read, update, delete *)

Section Crud.

(** C3: for every valid content [c], on a session with nothing pending,
    [create_note] on the validated [c] (no call failing, the drawn [id]
    not in the table) returns a record, and whenever it returns one,
    [get_note_by_id] on that record's [id] yields the record, whose
    content is [c.strip()]. *)
Theorem create_then_get_by_id (env env' : Env) (c : str)
  (note_data : NoteCreate.t) (s : Session) :
  validate c = Valid note_data ->
  unit_of_work s = [] ->
  fault env' call_query = None ->
  ((forall k, fault env k = None) ->
   find (has_id (uuid4 env)) (table s) = None ->
   exists result s1, NoteService.create_note env note_data s = (Return result, s1))
  /\ (forall result s1,
        NoteService.create_note env note_data s = (Return result, s1) ->
        exists s2,
          NoteService.get_note_by_id env' (Note.id result) s1
          = (Return (Some result), s2)
          /\ Note.content result = strip c).
Proof.
  intros V U Q. apply validate_valid_inv in V. destruct V as [Hc _].
  pose proof (create_note_paths env note_data s U) as P. cbv zeta in P.
  split.
  - intros NF Fresh. rewrite P, !NF.
    apply find_none_existsb in Fresh. rewrite Fresh. eauto.
  - intros result s1 R. rewrite P in R.
    destruct (fault env call_add); [discriminate|].
    destruct (fault env call_commit); [discriminate|].
    destruct (existsb _ _) eqn:X; [discriminate|].
    destruct (fault env call_refresh); [discriminate|].
    injection R as <- <-. rewrite get_note_by_id_paths, Q. simpl.
    apply find_none_existsb in X.
    pose proof (find_app_fresh (uuid4 env) (table s)
                  (inserted env (NoteCreate.content note_data)) X eq_refl) as F.
    rewrite F. eexists; split; [reflexivity|exact Hc].
Qed.

Lemma create_then_get_by_id_witness :
  exists result s1 s2,
    NoteService.create_note (quiet 8%N 20%Z) (NoteBase.Build (of_string "Buy eggs"))
      one_note = (Return result, s1)
    /\ NoteService.get_note_by_id (quiet 9%N 21%Z) (Note.id result) s1
       = (Return (Some result), s2)
    /\ Note.content result = of_string "Buy eggs".
Proof.
  destruct (create_then_get_by_id (quiet 8%N 20%Z) (quiet 9%N 21%Z)
              (of_string " Buy eggs ") (NoteBase.Build (of_string "Buy eggs"))
              one_note eq_refl eq_refl eq_refl) as [H1 H2].
  destruct (H1 (fun _ => eq_refl) eq_refl) as [result [s1 R]].
  destruct (H2 result s1 R) as [s2 [G C]].
  exists result, s1, s2. repeat split; assumption.
Defined.

(** C4: for every id and valid new content, on a session with nothing
    pending and with no call failing: when no row has that id,
    [update_note] returns [None] and neither the table nor the unit of
    work changes, nothing being committed (the one call made is the
    lookup); when a row has it, [update_note] commits and returns the
    updated record, whose content is the stripped new content and which
    is the row the table now holds under that id. *)
Theorem update_note_found_or_not (env : Env) (note_id : UUID) (c : str)
  (note_data : NoteUpdate.t) (s : Session) :
  validate c = Valid note_data ->
  unit_of_work s = [] ->
  (forall k, fault env k = None) ->
  (find (has_id note_id) (table s) = None ->
   exists s',
     NoteService.update_note env note_id note_data s = (Return None, s')
     /\ table s' = table s /\ unit_of_work s' = unit_of_work s
     /\ calls s' = calls s ++ [call_query])
  /\ (forall n, find (has_id note_id) (table s) = Some n ->
      exists n' s',
        NoteService.update_note env note_id note_data s = (Return (Some n'), s')
        /\ Note.id n' = note_id
        /\ Note.content n' = strip c
        /\ find (has_id note_id) (table s') = Some n'
        /\ unit_of_work s' = []
        /\ calls s' = calls s ++ [call_query; call_commit; call_refresh]).
Proof.
  intros V U NF. apply validate_valid_inv in V. destruct V as [Hc [Hne _]].
  pose proof (update_note_paths env note_id note_data s U) as P.
  cbv zeta in P. rewrite !NF in P.
  unfold NoteUpdate.content in P. rewrite Hc, strip_idem in P.
  split.
  - intros F. rewrite F in P. eexists. split; [exact P|]. simpl. auto.
  - intros n F. rewrite F in P.
    destruct (strip c) as [|a r] eqn:E; [congruence|]. simpl in P.
    exists (updated env n (a :: r)). eexists. split; [exact P|]. simpl.
    rewrite updated_id, updated_content.
    destruct (find_has_id _ _ _ F) as [Hid _].
    repeat split; auto. now apply find_update_rows.
Qed.

Lemma update_note_found_or_not_witness :
  (exists s', NoteService.update_note (quiet 8%N 20%Z) 5%N
                (NoteBase.Build (of_string "x")) one_note = (Return None, s')
              /\ table s' = table one_note)
  /\ (exists n' s', NoteService.update_note (quiet 8%N 20%Z) 7%N
                      (NoteBase.Build (of_string "x")) one_note
                    = (Return (Some n'), s')
                    /\ Note.content n' = of_string "x").
Proof.
  split.
  - destruct (update_note_found_or_not (quiet 8%N 20%Z) 5%N (of_string " x")
                (NoteBase.Build (of_string "x")) one_note
                eq_refl eq_refl (fun _ => eq_refl)) as [H _].
    destruct (H eq_refl) as [s' [R [T _]]]. exists s'. split; assumption.
  - destruct (update_note_found_or_not (quiet 8%N 20%Z) 7%N (of_string " x")
                (NoteBase.Build (of_string "x")) one_note
                eq_refl eq_refl (fun _ => eq_refl)) as [_ H].
    destruct (H buy_milk eq_refl) as [n' [s' [R [_ [C _]]]]].
    exists n', s'. split; assumption.
Defined.

(** C5, as stated, fails: updating [buy_milk] with the content it already
    has, at a time later than its [updated_at], is a successful update
    (the commit goes through and the record is returned) that emits no
    UPDATE, so [updated_at] keeps its value. *)
Lemma update_note_timestamps_counterexample :
  validate (of_string "Buy milk") = Valid (NoteBase.Build (of_string "Buy milk"))
  /\ (Note.updated_at buy_milk < now (quiet 8%N 20%Z))%Z
  /\ NoteService.update_note (quiet 8%N 20%Z) 7%N
       (NoteBase.Build (of_string "Buy milk")) one_note
     = (Return (Some buy_milk),
        mkSession [buy_milk] [] [call_query; call_commit; call_refresh])
  /\ ~ (Note.updated_at buy_milk < Note.updated_at buy_milk)%Z.
Proof.
  repeat split; try reflexivity. apply Z.lt_irrefl.
Qed.

(** C5 (amended): for every existing note, an update with valid content
    succeeds when no call fails, and a successful update leaves [id] and
    [created_at] as they were and the rows of other ids untouched; when
    the stripped new content differs from the stored content,
    [updated_at] becomes the store's [now()], strictly greater than before
    as soon as the clock has advanced past the old value; when it is the
    stored content, the record is returned unchanged. *)
Theorem update_note_timestamps (env : Env) (note_id : UUID) (c : str)
  (note_data : NoteUpdate.t) (s : Session) (n : Note.t) :
  validate c = Valid note_data ->
  unit_of_work s = [] ->
  find (has_id note_id) (table s) = Some n ->
  ((forall k, fault env k = None) ->
   exists n' s',
     NoteService.update_note env note_id note_data s = (Return (Some n'), s'))
  /\ (forall n' s',
        NoteService.update_note env note_id note_data s = (Return (Some n'), s') ->
        Note.id n' = Note.id n
        /\ Note.created_at n' = Note.created_at n
        /\ Note.content n' = strip c
        /\ (Note.content n <> strip c ->
            Note.updated_at n' = now env
            /\ ((Note.updated_at n < now env)%Z ->
                (Note.updated_at n < Note.updated_at n')%Z))
        /\ (Note.content n = strip c -> n' = n)
        /\ Permutation (map Note.id (table s')) (map Note.id (table s))
        /\ (forall m, In m (table s) -> Note.id m <> note_id ->
                      In m (table s'))).
Proof.
  intros V U F. apply validate_valid_inv in V. destruct V as [Hc [Hne _]].
  pose proof (update_note_paths env note_id note_data s U) as P.
  cbv zeta in P. rewrite F in P.
  unfold NoteUpdate.content in P. rewrite Hc, strip_idem in P.
  destruct (strip c) as [|a r] eqn:E; [congruence|]. simpl in P.
  split.
  - intros NF. rewrite !NF in P. eauto.
  - intros n' s' R. rewrite P in R.
    destruct (fault env call_query); [discriminate|].
    destruct (fault env call_commit); [discriminate|].
    destruct (fault env call_refresh); [discriminate|].
    injection R as <- <-. simpl.
    rewrite updated_id, updated_created_at, updated_content.
    repeat split; auto.
    + unfold updated. destruct (PyStr.eqb _ _) eqn:Q; [|reflexivity].
      apply str_eqb_eq in Q. contradiction.
    + unfold updated. destruct (PyStr.eqb _ _) eqn:Q; [|simpl; lia].
      apply str_eqb_eq in Q. contradiction.
    + intros Q. unfold updated. apply str_eqb_eq in Q. now rewrite Q.
    + apply update_rows_id.
    + intros m Hm Hid. apply update_rows_keeps; [exact Hm|].
      now apply has_id_false.
Qed.

Lemma update_note_timestamps_witness :
  exists n' s',
    NoteService.update_note (quiet 8%N 20%Z) 7%N
      (NoteBase.Build (of_string "Buy milk and eggs")) one_note
    = (Return (Some n'), s')
    /\ Note.created_at n' = 10%Z /\ (10 < Note.updated_at n')%Z.
Proof.
  destruct (update_note_timestamps (quiet 8%N 20%Z) 7%N
              (of_string "Buy milk and eggs ")
              (NoteBase.Build (of_string "Buy milk and eggs")) one_note
              buy_milk eq_refl eq_refl eq_refl) as [X H].
  destruct (X (fun _ => eq_refl)) as [n' [s' R]].
  destruct (H n' s' R) as [_ [C [_ [T _]]]].
  exists n', s'. split; [exact R|]. split; [exact C|].
  apply T; [vm_compute; discriminate | reflexivity].
Defined.

(** C6: for every id, on a session with nothing pending and with no call
    failing, [delete_note] returns [False], raising nothing and leaving
    the table as it is, when no row has that id, and returns [True] after
    a commit that removed the row when one has it; in either case
    [get_note_by_id] on that id afterwards yields [None]. *)
Theorem delete_then_get_by_id (env env' : Env) (note_id : UUID) (s : Session) :
  unit_of_work s = [] ->
  (forall k, fault env k = None) ->
  fault env' call_query = None ->
  exists b s' s'',
    NoteService.delete_note env note_id s = (Return b, s')
    /\ (find (has_id note_id) (table s) = None ->
        b = false /\ table s' = table s)
    /\ (forall n, find (has_id note_id) (table s) = Some n ->
        b = true /\ table s' = delete_rows note_id (table s)
        /\ ~ In n (table s')
        /\ calls s' = calls s ++ [call_query; call_delete; call_commit])
    /\ NoteService.get_note_by_id env' note_id s' = (Return None, s'').
Proof.
  intros U NF Q.
  pose proof (delete_note_paths env note_id s U) as P. rewrite !NF in P.
  destruct (find (has_id note_id) (table s)) as [n|] eqn:F.
  - exists true. eexists. eexists. split; [exact P|]. simpl.
    split; [discriminate|]. split.
    + intros m E. injection E as <-. repeat split; auto.
      unfold delete_rows. intros Hin. apply filter_In in Hin.
      destruct Hin as [_ Hin]. apply find_has_id in F. destruct F as [F _].
      apply has_id_true in F. rewrite F in Hin. discriminate.
    + rewrite get_note_by_id_paths, Q. simpl.
      unfold delete_rows. now rewrite find_filter_out.
  - exists false. eexists. eexists. split; [exact P|]. simpl.
    split; [auto|]. split; [discriminate|].
    rewrite get_note_by_id_paths, Q. simpl. now rewrite F.
Qed.

Lemma delete_then_get_by_id_witness :
  exists s' s'',
    NoteService.delete_note (quiet 8%N 20%Z) 7%N one_note = (Return true, s')
    /\ NoteService.get_note_by_id (quiet 9%N 21%Z) 7%N s' = (Return None, s'').
Proof.
  destruct (delete_then_get_by_id (quiet 8%N 20%Z) (quiet 9%N 21%Z) 7%N
              one_note eq_refl (fun _ => eq_refl) eq_refl)
    as [b [s' [s'' [R [_ [H G]]]]]].
  destruct (H buy_milk eq_refl) as [-> _].
  exists s', s''. split; assumption.
Defined.

Lemma NoDup_app_disjoint {A} (a b : list A) (x : A) :
  NoDup (a ++ b) -> In x a -> In x b -> False.
Proof.
  induction a as [|y a IH]; simpl; [tauto|].
  intros H [<-|Ha] Hb; inversion H as [|? ? Hn Hr]; subst.
  - apply Hn. apply in_or_app. now right.
  - now apply IH.
Qed.

(** Two consecutive pages of a table without duplicate ids share no id. *)
Lemma pages_disjoint (rows : list Note.t) (N : nat) (i : UUID) :
  pk_unique rows ->
  In i (map Note.id (firstn N rows)) ->
  In i (map Note.id (firstn N (skipn N rows))) -> False.
Proof.
  unfold pk_unique. intros H H1 H2.
  rewrite <- (firstn_skipn N rows), map_app in H.
  apply (NoDup_app_disjoint _ _ i H H1).
  apply in_map_iff in H2. destruct H2 as [m [E Hm]].
  apply in_map_iff. exists m. split; [exact E|].
  rewrite <- (firstn_skipn N (skipn N rows)). apply in_or_app. now left.
Qed.

(** C7, as stated, fails: an offset of -1 is out of range, and for it
    [get_all_notes] raises: the store rejects the query with a
    [DataError]. *)
Lemma get_all_notes_pages_counterexample :
  NoteService.get_all_notes (quiet 8%N 20%Z) (Some (-1)%Z) (Some 10%Z)
    two_notes
  = (Raise (ExcSQLAlchemyError DataError), record_call call_query two_notes).
Proof. reflexivity. Qed.

(** C7 (amended): with a limit and an offset that the store takes (from 0
    to 2^63 - 1), [get_all_notes] with an offset at or beyond the number
    of rows yields the empty list, and raises only if the query call
    itself fails; an offset or a limit that is negative, or 2^63 or more,
    raises [DataError].  When the table holds at least [2 * N] rows and the
    query does not fail, [get_all_notes(0, N)] followed by
    [get_all_notes(N, N)] yields two pages of [N] records that share no
    id. *)
Theorem get_all_notes_pages (env : Env) (s : Session) (skip limit N : Z) :
  ((Z.of_nat (List.length (table s)) <= skip < 9223372036854775808)%Z ->
   (0 <= limit < 9223372036854775808)%Z ->
   NoteService.get_all_notes env (Some skip) (Some limit) s
   = (match fault env call_query with
      | Some e => Raise (ExcSQLAlchemyError e)
      | None => Return []
      end, record_call call_query s))
  /\ ((skip < 0 \/ 9223372036854775808 <= skip
       \/ limit < 0 \/ 9223372036854775808 <= limit)%Z ->
      fault env call_query = None ->
      NoteService.get_all_notes env (Some skip) (Some limit) s
      = (Raise (ExcSQLAlchemyError DataError), record_call call_query s))
  /\ (fault env call_query = None ->
      pk_unique (table s) -> (0 <= N)%Z ->
      (2 * N <= Z.of_nat (List.length (table s)) < 9223372036854775808)%Z ->
      exists page1 page2 s1 s2,
        NoteService.get_all_notes env (Some 0%Z) (Some N) s = (Return page1, s1)
        /\ NoteService.get_all_notes env (Some N) (Some N) s1
           = (Return page2, s2)
        /\ Z.of_nat (List.length page1) = N
        /\ Z.of_nat (List.length page2) = N
        /\ forall i, In i (map Note.id page1) -> In i (map Note.id page2) ->
                     False).
Proof.
  split; [|split].
  - intros Hs Hl.
    pose proof (get_all_notes_paths env (Some skip) (Some limit) s) as P.
    cbv zeta in P. rewrite P.
    destruct (fault env call_query); [reflexivity|].
    assert (row_count skip = true) as -> by (apply row_count_iff; lia).
    assert (row_count limit = true) as -> by (apply row_count_iff; lia).
    simpl. rewrite skipn_all2 by lia. now rewrite firstn_nil.
  - intros H Q.
    pose proof (get_all_notes_paths env (Some skip) (Some limit) s) as P.
    cbv zeta in P. rewrite P, Q.
    assert (negb (row_count skip) || negb (row_count limit) = true) as ->;
      [|reflexivity].
    apply orb_true_iff.
    destruct (row_count skip) eqn:A; [|now left].
    destruct (row_count limit) eqn:B; [|now right].
    apply row_count_iff in A, B. lia.
  - intros Q PK HN Hlen.
    pose proof (get_all_notes_paths env (Some 0%Z) (Some N) s) as P1.
    pose proof (get_all_notes_paths env (Some N) (Some N)
                  (record_call call_query s)) as P2.
    cbv zeta in P1, P2. rewrite Q in P1, P2.
    assert (row_count N = true) as B by (apply row_count_iff; lia).
    rewrite B in P1, P2. simpl in P1, P2.
    do 4 eexists. split; [exact P1|]. split; [exact P2|].
    split; [|split].
    + rewrite length_firstn. lia.
    + rewrite length_firstn, length_skipn. lia.
    + intros i. apply pages_disjoint. exact PK.
Qed.

Lemma get_all_notes_pages_witness :
  NoteService.get_all_notes (quiet 8%N 20%Z) (Some 5%Z) (Some 10%Z) two_notes
  = (Return [], record_call call_query two_notes)
  /\ NoteService.get_all_notes (quiet 8%N 20%Z) (Some 5%Z) (Some (-1)%Z)
       two_notes
     = (Raise (ExcSQLAlchemyError DataError), record_call call_query two_notes)
  /\ exists page1 page2 s1 s2,
       NoteService.get_all_notes (quiet 8%N 20%Z) (Some 0%Z) (Some 1%Z)
         two_notes = (Return page1, s1)
       /\ NoteService.get_all_notes (quiet 8%N 20%Z) (Some 1%Z) (Some 1%Z) s1
          = (Return page2, s2)
       /\ forall i, In i (map Note.id page1) -> In i (map Note.id page2) ->
                    False.
Proof.
  destruct (get_all_notes_pages (quiet 8%N 20%Z) two_notes 5 10 1)
    as [H1 [_ H3]].
  destruct (get_all_notes_pages (quiet 8%N 20%Z) two_notes 5 (-1) 1)
    as [_ [H2 _]].
  split; [|split].
  - apply H1; simpl; lia.
  - apply H2; [lia | reflexivity].
  - destruct H3 as [page1 [page2 [s1 [s2 [R1 [R2 [_ [_ D]]]]]]]].
    + reflexivity.
    + repeat constructor; simpl; intuition discriminate.
    + lia.
    + simpl; lia.
    + exists page1, page2, s1, s2. repeat split; assumption.
Defined.

(** C10: [get_all_notes] called with no pagination argument is
    [get_all_notes(0, 100)]; when the query does not fail it returns the
    first 100 rows of the table, so at most 100 records, and exactly 100
    when the table holds more; the home page renders that list. *)
Theorem get_all_notes_default (env : Env) (s : Session) :
  fault env call_query = None ->
  NoteService.get_all_notes env None None s
  = NoteService.get_all_notes env (Some 0%Z) (Some 100%Z) s
  /\ exists notes,
       NoteService.get_all_notes env None None s
       = (Return notes, record_call call_query s)
       /\ notes = firstn 100 (table s)
       /\ (List.length notes <= 100)%nat
       /\ ((100 <= List.length (table s))%nat -> List.length notes = 100%nat)
       /\ Web.web_index env s
          = (Return (TemplateResponse "index.html" notes None None 200),
             record_call call_query s).
Proof.
  intros Q. split; [reflexivity|].
  pose proof (get_all_notes_paths env None None s) as P. cbv zeta in P.
  rewrite Q in P. simpl in P.
  exists (firstn 100 (table s)). split; [exact P|]. split; [reflexivity|].
  split; [apply firstn_le_length|]. split.
  - intros H. rewrite length_firstn. lia.
  - unfold Web.web_index. now rewrite P.
Qed.

Lemma get_all_notes_default_witness :
  exists notes,
    NoteService.get_all_notes (quiet 8%N 20%Z) None None one_note
    = (Return notes, record_call call_query one_note)
    /\ (List.length notes <= 100)%nat.
Proof.
  destruct (proj2 (get_all_notes_default (quiet 8%N 20%Z) one_note eq_refl))
    as [notes [R [_ [L _]]]].
  exists notes. split; assumption.
Defined.

End Crud.

(* ================================================================= *)
(** ** Storage failures and the invariant of the stored content *)

Section Failures.



(** The [try] of the three operations: an error raised inside it is
    answered with the rollback, and comes out again unless the rollback
    itself fails, whose error then comes out in its place. *)
Lemma try_except_rollback_raises {A} (env : Env) (body : M A)
  (s s1 : Session) (e : SQLAlchemyError) :
  body s = (Raise (ExcSQLAlchemyError e), s1) ->
  try_except_rollback env body s
  = (Raise (ExcSQLAlchemyError (reraised env e)),
     mkSession (table s1) [] (calls s1 ++ [call_rollback])).
Proof.
  intros H. unfold try_except_rollback, db_rollback, bind, raise, reraised.
  rewrite H. destruct (fault env call_rollback); reflexivity.
Qed.

Lemma instance_content_truthy (note_data : NoteBase.t) :
  instance_of_schema note_data ->
  negb (truthy (NoteBase.content note_data))
  || negb (truthy (strip (NoteBase.content note_data))) = false.
Proof.
  intros I. apply instance_normalized in I. destruct I as [N [_ S]].
  rewrite S. destruct (NoteBase.content note_data); [congruence|reflexivity].
Qed.




(** What one call of the service does to the table, whatever fails: it
    leaves it, appends a row of validated content under a new id, updates
    the rows of one id with validated content, or deletes them. *)
Lemma step_table (s s' : Session) :
  step s s' -> unit_of_work s = [] ->
  unit_of_work s' = []
  /\ (table s' = table s
      \/ (exists env note_data,
            instance_of_schema note_data
            /\ find (has_id (uuid4 env)) (table s) = None
            /\ table s'
               = table s ++ [inserted env (NoteBase.content note_data)])
      \/ (exists env note_id note_data,
            instance_of_schema note_data
            /\ table s'
               = update_rows env note_id (NoteBase.content note_data) (table s))
      \/ (exists note_id, table s' = delete_rows note_id (table s))).
Proof.
  intros St U.
  destruct St as [env note_data s I | env note_id s | env skip limit s
                 | env note_id note_data s I | env note_id s].
  - rewrite (create_note_paths env note_data s U). cbv zeta.
    destruct (fault env call_add); [simpl; auto|].
    destruct (fault env call_commit); [simpl; auto|].
    destruct (existsb (has_id (uuid4 env)) (table s)) eqn:X; [simpl; auto|].
    apply find_none_existsb in X.
    destruct (fault env call_refresh); simpl;
      (split; [reflexivity|]; right; left; exists env, note_data; auto).
  - rewrite get_note_by_id_paths.
    destruct (fault env call_query); simpl; auto.
  - pose proof (get_all_notes_paths env skip limit s) as P. cbv zeta in P.
    rewrite P. destruct (fault env call_query); [simpl; auto|].
    destruct (_ || _)%bool; simpl; auto.
  - rewrite (update_note_paths env note_id note_data s U). cbv zeta.
    destruct (fault env call_query); [simpl; auto|].
    destruct (find (has_id note_id) (table s)) as [n|]; [|simpl; auto].
    unfold NoteUpdate.content. rewrite (instance_content_truthy note_data I).
    destruct (fault env call_commit); [simpl; auto|].
    assert (strip (NoteBase.content note_data) = NoteBase.content note_data)
      as E by (apply instance_normalized in I; apply I).
    rewrite E.
    destruct (fault env call_refresh); simpl;
      (split; [reflexivity|]; right; right; left;
       exists env, note_id, note_data; auto).
  - rewrite (delete_note_paths env note_id s U).
    destruct (fault env call_query); [simpl; auto|].
    destruct (find (has_id note_id) (table s)) as [n|]; [|simpl; auto].
    destruct (fault env call_delete); [simpl; auto|].
    destruct (fault env call_commit); [simpl; auto|]. simpl.
    split; [reflexivity|]. right; right; right. exists note_id. reflexivity.
Qed.

Lemma step_normalized (s s' : Session) :
  step s s' -> unit_of_work s = [] -> all_normalized (table s) ->
  all_normalized (table s').
Proof.
  intros St U A. destruct (step_table s s' St U) as [_ H].
  destruct H as [-> | [[env [d [I [_ ->]]]] | [[env [i [d [I ->]]]] | [i ->]]]].
  - exact A.
  - apply Forall_app. split; [exact A|]. constructor; [|constructor].
    simpl. now apply instance_normalized.
  - unfold all_normalized in *. rewrite Forall_forall in *.
    intros m Hm. apply update_rows_in in Hm.
    destruct Hm as [Hm | [n [_ [_ ->]]]]; [now apply A|].
    rewrite updated_content. now apply instance_normalized.
  - unfold all_normalized, delete_rows. apply Forall_forall.
    intros m Hm. apply filter_In in Hm. destruct Hm as [Hm _].
    unfold all_normalized in A. rewrite Forall_forall in A. now apply A.
Qed.

Lemma step_pk_unique (s s' : Session) :
  step s s' -> unit_of_work s = [] -> pk_unique (table s) ->
  pk_unique (table s').
Proof.
  intros St U K. destruct (step_table s s' St U) as [_ H].
  destruct H as [-> | [[env [d [I [F ->]]]] | [[env [i [d [I ->]]]] | [i ->]]]].
  - exact K.
  - apply pk_unique_app_fresh; auto.
  - unfold pk_unique in *.
    eapply Permutation_NoDup; [|exact K].
    apply Permutation_sym, update_rows_id.
  - now apply pk_unique_filter.
Qed.

Lemma reachable_invariant (s : Session) :
  reachable s ->
  unit_of_work s = [] /\ all_normalized (table s) /\ pk_unique (table s).
Proof.
  induction 1 as [|s s' R [U [A K]] St].
  - repeat split; constructor.
  - split; [now apply (step_table s s')|].
    split; [now apply (step_normalized s s') | now apply (step_pk_unique s s')].
Qed.

(** The primary key holds in every session the service reaches. *)
Lemma reachable_pk_unique (s : Session) : reachable s -> pk_unique (table s).
Proof. intros R. now apply reachable_invariant. Qed.

(** C9: every note in the table of a session the service can reach from
    the empty table has content that is non-empty, not whitespace only,
    and equal to its own stripped form; and every operation of the
    service, run between two requests (nothing pending), keeps it so. *)
Theorem stored_content_normalized (s : Session) :
  (reachable s -> all_normalized (table s))
  /\ (forall s', unit_of_work s = [] -> all_normalized (table s) ->
                 step s s' ->
                 unit_of_work s' = [] /\ all_normalized (table s')).
Proof.
  split.
  - intros R. now apply reachable_invariant.
  - intros s' U A St. split.
    + now apply (step_table s s').
    + now apply (step_normalized s s').
Qed.

Lemma stored_content_normalized_witness :
  all_normalized
    (table (snd (NoteService.create_note (quiet 8%N 20%Z)
                   (NoteBase.Build (of_string "Buy eggs")) empty_session))).
Proof.
  apply (proj1 (stored_content_normalized _)).
  apply (reachable_step empty_session _ reachable_empty).
  apply step_create. exists (of_string " Buy eggs "). reflexivity.
Defined.

End Failures.

(* ================================================================= *)
(** ** The tests of the repository, on the embedding *)

Section RepositoryTests.

(** tests/unit/test_schemas.py *)

Example test_note_create_valid_content :
  NoteCreate.init (Some (of_string "This is a valid note content"))
  = Valid (NoteBase.Build (of_string "This is a valid note content")).
Proof. reflexivity. Qed.

Example test_note_create_strips_whitespace :
  NoteCreate.init (Some (of_string "  Content with spaces  "))
  = Valid (NoteBase.Build (of_string "Content with spaces")).
Proof. reflexivity. Qed.

Example test_note_create_empty_content_fails :
  NoteCreate.init (Some (of_string "")) = ValidationError (string_too_short 1).
Proof. reflexivity. Qed.

Example test_note_create_whitespace_only_fails :
  NoteCreate.init (Some (of_string "   "))
  = ValidationError
      (value_error "Note content cannot be empty or whitespace only").
Proof. reflexivity. Qed.

Example test_note_create_exceeds_max_length :
  NoteCreate.init (Some (times 120%N 5001)) = ValidationError (string_too_long 5000).
Proof. vm_compute. reflexivity. Qed.

Example test_note_create_at_max_length :
  NoteCreate.init (Some (times 120%N 5000)) = Valid (NoteBase.Build (times 120%N 5000)).
Proof. vm_compute. reflexivity. Qed.

Example test_note_create_minimum_valid_content :
  NoteCreate.init (Some (of_string "a")) = Valid (NoteBase.Build (of_string "a")).
Proof. reflexivity. Qed.

Example test_note_with_only_spaces_between_words :
  NoteCreate.init (Some (of_string "Word1     Word2     Word3"))
  = Valid (NoteBase.Build (of_string "Word1     Word2     Word3")).
Proof. reflexivity. Qed.

Example test_multiline_content :
  let multiline_content :=
    of_string "Line 1" ++ [10%N] ++ of_string "Line 2" ++ [10%N]
    ++ of_string "Line 3" in
  NoteCreate.init (Some multiline_content)
  = Valid (NoteBase.Build multiline_content).
Proof. reflexivity. Qed.

Example test_missing_content_field :
  NoteCreate.init None = ValidationError missing.
Proof. reflexivity. Qed.

(** tests/unit/test_note_service.py: what the mocked session is asked. *)

Example test_create_note_success :
  let r := NoteService.create_note (quiet 8%N 20%Z)
             (NoteBase.Build (of_string "Trimmed content")) empty_session in
  fst r = Return (Note.Build 8%N (of_string "Trimmed content") 20%Z 20%Z)
  /\ calls (snd r) = [call_add; call_commit; call_refresh].
Proof. split; reflexivity. Qed.

Example test_create_note_database_error :
  let r := NoteService.create_note
             (failing 8%N 20%Z call_commit (OperationalError 0))
             (NoteBase.Build (of_string "Trimmed content")) empty_session in
  fst r = Raise (ExcSQLAlchemyError (OperationalError 0))
  /\ calls (snd r) = [call_add; call_commit; call_rollback]
  /\ table (snd r) = [].
Proof. repeat split; reflexivity. Qed.

Example test_update_note_not_found :
  let r := NoteService.update_note (quiet 8%N 20%Z) 5%N
             (NoteBase.Build (of_string "New content")) one_note in
  fst r = Return None /\ calls (snd r) = [call_query].
Proof. split; reflexivity. Qed.

Example test_update_note_database_error :
  let r := NoteService.update_note
             (failing 8%N 20%Z call_commit (OperationalError 0)) 7%N
             (NoteBase.Build (of_string "New content")) one_note in
  fst r = Raise (ExcSQLAlchemyError (OperationalError 0))
  /\ calls (snd r) = [call_query; call_commit; call_rollback]
  /\ table (snd r) = [buy_milk].
Proof. repeat split; reflexivity. Qed.

Example test_delete_note_success :
  let r := NoteService.delete_note (quiet 8%N 20%Z) 7%N one_note in
  fst r = Return true
  /\ calls (snd r) = [call_query; call_delete; call_commit]
  /\ table (snd r) = [].
Proof. repeat split; reflexivity. Qed.

Example test_delete_note_not_found :
  let r := NoteService.delete_note (quiet 8%N 20%Z) 5%N one_note in
  fst r = Return false /\ calls (snd r) = [call_query].
Proof. split; reflexivity. Qed.

Example test_delete_note_database_error :
  let r := NoteService.delete_note
             (failing 8%N 20%Z call_commit (OperationalError 0)) 7%N one_note in
  fst r = Raise (ExcSQLAlchemyError (OperationalError 0))
  /\ calls (snd r) = [call_query; call_delete; call_commit; call_rollback]
  /\ table (snd r) = [buy_milk].
Proof. repeat split; reflexivity. Qed.

Example test_get_all_notes_empty_database :
  fst (NoteService.get_all_notes (quiet 8%N 20%Z) None None empty_session)
  = Return [].
Proof. reflexivity. Qed.

(** tests/integration/test_note_service_integration.py *)

Example test_update_note_integration :
  let r := NoteService.update_note (quiet 8%N 20%Z) 7%N
             (NoteBase.Build (of_string "Updated content")) one_note in
  fst r = Return (Some (Note.Build 7%N (of_string "Updated content") 10%Z 20%Z))
  /\ table (snd r) = [Note.Build 7%N (of_string "Updated content") 10%Z 20%Z].
Proof. split; reflexivity. Qed.

Example test_get_all_notes_with_pagination_integration :
  let env := quiet 8%N 20%Z in
  fst (NoteService.get_all_notes env (Some 0%Z) (Some 1%Z) two_notes)
  = Return [buy_milk]
  /\ fst (NoteService.get_all_notes env (Some 1%Z) (Some 1%Z) two_notes)
     = Return [call_mum]
  /\ fst (NoteService.get_all_notes env (Some 2%Z) (Some 1%Z) two_notes)
     = Return [].
Proof. repeat split; reflexivity. Qed.

(** A failure of the refresh comes after the commit: the row is stored
    and the caller gets the error. *)
Example refresh_fails_after_commit :
  let r := NoteService.create_note
             (failing 8%N 20%Z call_refresh (OperationalError 0))
             (NoteBase.Build (of_string "Buy eggs")) one_note in
  fst r = Raise (ExcSQLAlchemyError (OperationalError 0))
  /\ calls (snd r) = [call_add; call_commit; call_refresh; call_rollback]
  /\ table (snd r)
     = [buy_milk; Note.Build 8%N (of_string "Buy eggs") 20%Z 20%Z].
Proof. repeat split; reflexivity. Qed.

(** The primary key rejects an [id] that is taken. *)
Example create_note_id_taken :
  let r := NoteService.create_note (quiet 7%N 20%Z)
             (NoteBase.Build (of_string "Buy eggs")) one_note in
  fst r = Raise (ExcSQLAlchemyError IntegrityError)
  /\ table (snd r) = [buy_milk].
Proof. split; reflexivity. Qed.

End RepositoryTests.

(* ================================================================= *)
(** ** More on the schema and the model *)

Section SchemaAndModel.

Lemma whitespace_only_false_strip (s : str) :
  whitespace_only s = false <-> strip s <> [].
Proof.
  split.
  - intros W E. apply strip_nil_iff in E. congruence.
  - intros N. destruct (whitespace_only s) eqn:W; [|reflexivity].
    apply strip_nil_iff in W. contradiction.
Qed.

Lemma truthy_strip (s : str) :
  negb (truthy s) || negb (truthy (strip s)) = whitespace_only s.
Proof.
  destruct (whitespace_only s) eqn:W.
  - apply strip_nil_iff in W. rewrite W. simpl. apply orb_true_r.
  - apply whitespace_only_false_strip in W.
    destruct s as [|c t]; [exfalso; apply W; reflexivity|].
    destruct (strip (c :: t)); [congruence|reflexivity].
Qed.

(** The schema as a table of cases on its input. *)
Lemma validate_cases (s : str) :
  validate s =
  if negb (well_formed s) then ValidationError string_unicode
  else if (len s <? 1)%Z then ValidationError (string_too_short 1)
  else if (len s >? 5000)%Z then ValidationError (string_too_long 5000)
  else if whitespace_only s then
    ValidationError (value_error NoteBase.msg_empty)
  else Valid (NoteBase.Build (strip s)).
Proof.
  unfold validate, NoteBase.init, NoteBase.field_constraints,
    NoteBase.min_length, NoteBase.max_length.
  destruct (negb (well_formed s)); [reflexivity|].
  destruct (len s <? 1)%Z; [reflexivity|].
  destruct (len s >? 5000)%Z eqn:L; [reflexivity|].
  unfold NoteBase.validate_content. rewrite truthy_strip.
  destruct (whitespace_only s); [reflexivity|].
  destruct (len (strip s) >? 5000)%Z eqn:G; [|reflexivity].
  apply Z.gtb_lt in G. rewrite Z.gtb_ltb in L. apply Z.ltb_ge in L.
  pose proof (strip_len s). lia.
Qed.

(** The converse of [validate_valid_inv]. *)
Lemma validate_valid_intro (s : str) :
  well_formed s = true ->
  (1 <= len s <= 5000)%Z -> strip s <> [] ->
  validate s = Valid (NoteBase.Build (strip s)).
Proof.
  intros W [A B] N. rewrite validate_cases, W. cbn [negb].
  apply whitespace_only_false_strip in N. rewrite N.
  destruct (len s <? 1)%Z eqn:A'; [apply Z.ltb_lt in A'; lia|].
  destruct (len s >? 5000)%Z eqn:B'; [apply Z.gtb_lt in B'; lia|].
  reflexivity.
Qed.

Lemma instance_eta (s : str) (note_data : NoteBase.t) :
  validate s = Valid note_data ->
  note_data = NoteBase.Build (strip s)
  /\ strip s <> [] /\ (1 <= len s <= 5000)%Z.
Proof.
  intros V. apply validate_valid_inv in V. destruct V as [C R].
  destruct note_data as [c]. simpl in C. subst c. auto.
Qed.

Lemma update_content_eq (self : Note.t) (new_content : str) :
  Note.update_content self new_content
  = if whitespace_only new_content
    then Raise (ExcValueError "Note content cannot be empty")
    else Return (Note.Build (Note.id self) (strip new_content)
                   (Note.created_at self) (Note.updated_at self)).
Proof.
  unfold Note.update_content. rewrite truthy_strip.
  destruct (whitespace_only new_content); reflexivity.
Qed.

(** X1: the schema accepts a string exactly when it holds no surrogate,
    has between 1 and 5000 characters and is not whitespace only, and the
    instance then holds the stripped string. *)
Theorem validate_valid_iff (s : str) (note_data : NoteBase.t) :
  validate s = Valid note_data
  <-> well_formed s = true /\ (1 <= len s <= 5000)%Z /\ strip s <> []
      /\ note_data = NoteBase.Build (strip s).
Proof.
  rewrite validate_cases. split.
  - destruct (well_formed s); [|discriminate]. cbn [negb].
    destruct (len s <? 1)%Z eqn:A; [discriminate|].
    destruct (len s >? 5000)%Z eqn:B; [discriminate|].
    destruct (whitespace_only s) eqn:W; [discriminate|].
    intros E. injection E as <-.
    apply Z.ltb_ge in A. rewrite Z.gtb_ltb in B. apply Z.ltb_ge in B.
    apply whitespace_only_false_strip in W. repeat split; auto; lia.
  - intros [Wf [[A B] [N ->]]]. rewrite Wf. cbn [negb].
    apply whitespace_only_false_strip in N. rewrite N.
    destruct (len s <? 1)%Z eqn:A'; [apply Z.ltb_lt in A'; lia|].
    destruct (len s >? 5000)%Z eqn:B'; [apply Z.gtb_lt in B'; lia|].
    reflexivity.
Qed.

(** X2: the two errors the field validator raises are shadowed by the
    constraints of the field: through the schema an empty string fails on
    [min_length], not on the validator's check, and the validator's
    "cannot exceed 5000 characters" is never the error, although the
    validator called on its own does raise it for a string whose stripped
    form is longer than 5000; the schema fails on such a string with the
    [max_length] violation, or as unreadable text when it holds a
    surrogate. *)
Theorem validate_content_errors_shadowed (s : str) :
  validate s <> ValidationError (value_error NoteBase.msg_too_long)
  /\ (s = [] -> validate s = ValidationError (string_too_short 1))
  /\ ((len (strip s) > 5000)%Z ->
      NoteBase.validate_content s
      = ValidationError (value_error NoteBase.msg_too_long)
      /\ validate s
         = ValidationError (if well_formed s then string_too_long 5000
                            else string_unicode)).
Proof.
  rewrite validate_cases. split; [|split].
  - destruct (negb (well_formed s)); [discriminate|].
    destruct (len s <? 1)%Z; [discriminate|].
    destruct (len s >? 5000)%Z; [discriminate|].
    destruct (whitespace_only s); discriminate.
  - intros ->. reflexivity.
  - intros L. split; [now apply validate_content_too_long|].
    destruct (well_formed s); [|reflexivity]. cbn [negb].
    pose proof (strip_len s).
    destruct (len s <? 1)%Z eqn:A; [apply Z.ltb_lt in A; lia|].
    destruct (len s >? 5000)%Z eqn:B; [reflexivity|].
    rewrite Z.gtb_ltb in B. apply Z.ltb_ge in B. lia.
Qed.

(** X3: validation is idempotent: the content of an instance validates
    again to the same instance. *)
Theorem validate_again (s : str) (note_data : NoteBase.t) :
  validate s = Valid note_data ->
  validate (NoteBase.content note_data) = Valid note_data.
Proof.
  intros V. pose proof (validate_valid_well_formed s note_data V) as W.
  apply instance_eta in V. destruct V as [-> [N [A B]]].
  simpl. rewrite <- (strip_idem s) at 2. apply validate_valid_intro.
  - now rewrite well_formed_strip.
  - pose proof (strip_len s). split; [|lia].
    destruct (strip s); [congruence|]. unfold len; simpl; lia.
  - now rewrite strip_idem.
Qed.

Lemma validate_again_witness :
  validate (of_string "Buy  milk")
  = Valid (NoteBase.Build (of_string "Buy  milk")).
Proof.
  exact (validate_again (of_string "  Buy  milk ")
           (NoteBase.Build (of_string "Buy  milk")) eq_refl).
Defined.

(** X4: the content of an instance has between 1 and 5000 characters
    and neither starts nor ends with a whitespace character. *)
Theorem instance_content_shape (s : str) (note_data : NoteBase.t) :
  validate s = Valid note_data ->
  exists c t,
    NoteBase.content note_data = c :: t
    /\ (1 <= len (c :: t) <= 5000)%Z
    /\ isspace c = false
    /\ isspace (last (c :: t) c) = false.
Proof.
  intros V. apply instance_eta in V. destruct V as [-> [N [A B]]].
  simpl. destruct (strip s) as [|c t] eqn:E; [congruence|].
  exists c, t. pose proof (strip_len s) as L. rewrite E in L.
  destruct (strip_ends s c t E) as [H1 H2].
  repeat split; auto; try lia. unfold len; simpl; lia.
Qed.

Lemma instance_content_shape_witness :
  exists c t,
    of_string "Buy  milk" = c :: t
    /\ (1 <= len (c :: t) <= 5000)%Z
    /\ isspace c = false
    /\ isspace (last (c :: t) c) = false.
Proof.
  exact (instance_content_shape (of_string "  Buy  milk ")
           (NoteBase.Build (of_string "Buy  milk")) eq_refl).
Defined.

(** X5: [update_content] raises its [ValueError] exactly on the strings
    that are empty or whitespace only; on any other string, of whatever
    length, it sets [content] to the stripped string, which is
    normalized, and leaves [id], [created_at] and [updated_at] alone. *)
Theorem update_content_cases (self : Note.t) (new_content : str) :
  (whitespace_only new_content = true
   /\ Note.update_content self new_content
      = Raise (ExcValueError "Note content cannot be empty"))
  \/ (whitespace_only new_content = false
      /\ Note.update_content self new_content
         = Return (Note.Build (Note.id self) (strip new_content)
                     (Note.created_at self) (Note.updated_at self))
      /\ normalized (strip new_content)).
Proof.
  rewrite update_content_eq.
  destruct (whitespace_only new_content) eqn:W; [left; auto|].
  right. split; [reflexivity|]. split; [reflexivity|].
  apply normalized_strip. now apply whitespace_only_false_strip.
Qed.

(** X6: the model's own check never fires on the content of a schema
    instance, and its second stripping changes nothing: [update_content]
    stores the instance's content as it is. *)
Theorem update_content_of_instance (self : Note.t) (s : str)
  (note_data : NoteUpdate.t) :
  validate s = Valid note_data ->
  Note.update_content self (NoteUpdate.content note_data)
  = Return (Note.Build (Note.id self) (NoteUpdate.content note_data)
              (Note.created_at self) (Note.updated_at self)).
Proof.
  intros V. apply instance_eta in V. destruct V as [-> [N _]].
  unfold NoteUpdate.content. simpl. rewrite update_content_eq, strip_idem.
  assert (whitespace_only (strip s) = false) as W.
  { apply whitespace_only_false_strip. now rewrite strip_idem. }
  now rewrite W.
Qed.

Lemma update_content_of_instance_witness :
  Note.update_content buy_milk (of_string "Buy eggs")
  = Return (Note.Build 7%N (of_string "Buy eggs") 10%Z 10%Z).
Proof.
  exact (update_content_of_instance buy_milk (of_string " Buy eggs ")
           (NoteBase.Build (of_string "Buy eggs")) eq_refl).
Defined.

End SchemaAndModel.

(* ================================================================= *)
(** ** More on the service *)

Section ServiceFacts.

Lemma find_delete_rows_other (i j : UUID) (rows : list Note.t) :
  j <> i ->
  find (has_id j) (delete_rows i rows) = find (has_id j) rows.
Proof.
  intros Hji. unfold delete_rows.
  induction rows as [|n rows IH]; simpl; [reflexivity|].
  destruct (has_id i n) eqn:Ei; simpl.
  - apply has_id_true in Ei.
    assert (has_id j n = false) as -> by (apply has_id_false; congruence).
    exact IH.
  - destruct (has_id j n); [reflexivity | exact IH].
Qed.

Lemma delete_rows_absent (i : UUID) (rows : list Note.t) :
  find (has_id i) rows = None -> delete_rows i rows = rows.
Proof.
  unfold delete_rows. induction rows as [|n rows IH]; simpl; [reflexivity|].
  destruct (has_id i n); [discriminate|]. simpl. intros F. now rewrite IH.
Qed.

Lemma delete_rows_app (i : UUID) (a b : list Note.t) :
  delete_rows i (a ++ b) = delete_rows i a ++ delete_rows i b.
Proof. unfold delete_rows. apply filter_app. Qed.

Lemma delete_rows_ids (i : UUID) (rows : list Note.t) :
  ids (delete_rows i rows) = filter (fun j => negb (j =? i)%N) (ids rows).
Proof.
  unfold ids, delete_rows. induction rows as [|n rows IH]; simpl; [reflexivity|].
  unfold has_id at 1. destruct (Note.id n =? i)%N; simpl; now rewrite IH.
Qed.

Lemma delete_rows_length (i : UUID) (rows : list Note.t) (n : Note.t) :
  pk_unique rows -> find (has_id i) rows = Some n ->
  S (List.length (delete_rows i rows)) = List.length rows.
Proof.
  unfold pk_unique. induction rows as [|m rows IH]; simpl; [discriminate|].
  intros K F. inversion K as [|? ? Hm Hr]; subst.
  destruct (has_id i m) eqn:E; simpl.
  - apply has_id_true in E. subst i. f_equal. f_equal.
    apply delete_rows_absent. now apply find_none_not_in.
  - f_equal. now apply IH.
Qed.

Lemma find_app_other (j : UUID) (rows : list Note.t) (n : Note.t) :
  Note.id n <> j ->
  find (has_id j) (rows ++ [n]) = find (has_id j) rows.
Proof.
  intros H. induction rows as [|m rows IH]; simpl.
  - apply has_id_false in H. now rewrite H.
  - destruct (has_id j m); [reflexivity | exact IH].
Qed.

(** X7: the two reading operations leave the table and the pending work
    as they are, whatever happens to the query: they make one call on the
    session, the query, and so never commit nor roll back. *)
Theorem reads_leave_the_store (env : Env) (note_id : UUID)
  (skip limit : option Z) (s : Session) :
  (table (snd (NoteService.get_note_by_id env note_id s)) = table s
   /\ unit_of_work (snd (NoteService.get_note_by_id env note_id s))
      = unit_of_work s
   /\ calls (snd (NoteService.get_note_by_id env note_id s))
      = calls s ++ [call_query])
  /\ (table (snd (NoteService.get_all_notes env skip limit s)) = table s
      /\ unit_of_work (snd (NoteService.get_all_notes env skip limit s))
         = unit_of_work s
      /\ calls (snd (NoteService.get_all_notes env skip limit s))
         = calls s ++ [call_query]).
Proof.
  split.
  - rewrite get_note_by_id_paths.
    destruct (fault env call_query); simpl; auto.
  - pose proof (get_all_notes_paths env skip limit s) as P. cbv zeta in P.
    rewrite P. destruct (fault env call_query); [simpl; auto|].
    destruct (_ || _)%bool; simpl; auto.
Qed.

(** X8: when the query does not fail, [get_note_by_id] returns a row of
    the table that has the id asked for, the first in the store's order,
    and returns [None] only when no row has that id. *)
Theorem get_note_by_id_sound (env : Env) (note_id : UUID) (s : Session) :
  fault env call_query = None ->
  exists r s',
    NoteService.get_note_by_id env note_id s = (Return r, s')
    /\ match r with
       | Some n =>
           Note.id n = note_id /\ In n (table s)
           /\ exists before after,
                table s = before ++ n :: after
                /\ ~ In note_id (ids before)
       | None => ~ In note_id (ids (table s))
       end.
Proof.
  intros Q. rewrite get_note_by_id_paths, Q.
  do 2 eexists. split; [reflexivity|].
  destruct (find (has_id note_id) (table s)) as [n|] eqn:F.
  - destruct (find_has_id _ _ _ F) as [Hid Hin]. repeat split; auto.
    clear Hin. induction (table s) as [|m rows IH]; simpl in F; [discriminate|].
    destruct (has_id note_id m) eqn:E.
    + injection F as ->. exists [], rows. split; [reflexivity|]. simpl. tauto.
    + destruct (IH F) as [before [after [E1 E2]]].
      exists (m :: before), after. split; [simpl; now rewrite E1|].
      simpl. apply has_id_false in E. intros [H|H]; auto.
  - now apply find_none_not_in.
Qed.

Lemma get_note_by_id_sound_witness :
  exists s',
    NoteService.get_note_by_id (quiet 8%N 20%Z) 9%N two_notes
    = (Return (Some call_mum), s').
Proof.
  destruct (get_note_by_id_sound (quiet 8%N 20%Z) 9%N two_notes eq_refl)
    as [r [s' [R _]]].
  vm_compute in R. injection R as <- <-. eexists. reflexivity.
Defined.

(** X9: a successful [create_note] appends exactly one row, at the end
    of the table: it has the drawn id, which no row had, the content of
    the instance as it is, and one and the same time as [created_at] and
    [updated_at]; every other note is found as before. *)
Theorem create_note_appends (env : Env) (note_data : NoteCreate.t)
  (s s' : Session) (n : Note.t) :
  unit_of_work s = [] ->
  NoteService.create_note env note_data s = (Return n, s') ->
  table s' = table s ++ [n]
  /\ Note.id n = uuid4 env
  /\ ~ In (uuid4 env) (ids (table s))
  /\ Note.content n = NoteCreate.content note_data
  /\ Note.created_at n = now env
  /\ Note.updated_at n = Note.created_at n
  /\ unit_of_work s' = []
  /\ forall j, j <> Note.id n ->
               find (has_id j) (table s') = find (has_id j) (table s).
Proof.
  intros U R. rewrite (create_note_paths env note_data s U) in R.
  cbv zeta in R.
  destruct (fault env call_add); [discriminate|].
  destruct (fault env call_commit); [discriminate|].
  destruct (existsb _ _) eqn:X; [discriminate|].
  destruct (fault env call_refresh); [discriminate|].
  injection R as <- <-. simpl. repeat split; auto.
  - apply find_none_not_in. now apply find_none_existsb.
  - intros j Hj. apply find_app_other. simpl. congruence.
Qed.

Lemma create_note_appends_witness :
  exists n s',
    NoteService.create_note (quiet 8%N 20%Z)
      (NoteBase.Build (of_string "Buy eggs")) one_note = (Return n, s')
    /\ table s' = [buy_milk; n]
    /\ Note.updated_at n = Note.created_at n.
Proof.
  exists (Note.Build 8%N (of_string "Buy eggs") 20%Z 20%Z).
  eexists. split; [reflexivity|].
  destruct (create_note_appends (quiet 8%N 20%Z)
              (NoteBase.Build (of_string "Buy eggs")) one_note _ _
              eq_refl eq_refl) as [T [_ [_ [_ [_ [E _]]]]]].
  split; [exact T | exact E].
Defined.

(** X10: deleting the note that [create_note] has just returned gives the
    table back as it was before the creation. *)
Theorem create_then_delete (env env' : Env) (note_data : NoteCreate.t)
  (s s1 : Session) (n : Note.t) :
  unit_of_work s = [] ->
  NoteService.create_note env note_data s = (Return n, s1) ->
  (forall k, fault env' k = None) ->
  exists s2,
    NoteService.delete_note env' (Note.id n) s1 = (Return true, s2)
    /\ table s2 = table s.
Proof.
  intros U R NF. rewrite (create_note_paths env note_data s U) in R.
  cbv zeta in R.
  destruct (fault env call_add); [discriminate|].
  destruct (fault env call_commit); [discriminate|].
  destruct (existsb _ _) eqn:X; [discriminate|].
  destruct (fault env call_refresh); [discriminate|].
  injection R as <- <-. apply find_none_existsb in X.
  rewrite delete_note_paths by reflexivity. rewrite !NF. simpl.
  pose proof (find_app_fresh (uuid4 env) (table s)
                (inserted env (NoteCreate.content note_data)) X eq_refl) as F.
  rewrite F. eexists. split; [reflexivity|]. simpl.
  rewrite delete_rows_app, (delete_rows_absent _ _ X). simpl.
  unfold has_id. simpl. rewrite N.eqb_refl. simpl. apply app_nil_r.
Qed.

Lemma create_then_delete_witness :
  exists s2,
    NoteService.delete_note (quiet 9%N 21%Z) 8%N
      (snd (NoteService.create_note (quiet 8%N 20%Z)
              (NoteBase.Build (of_string "Buy eggs")) one_note))
    = (Return true, s2)
    /\ table s2 = [buy_milk].
Proof.
  exact (create_then_delete (quiet 8%N 20%Z) (quiet 9%N 21%Z)
           (NoteBase.Build (of_string "Buy eggs")) one_note _ _
           eq_refl eq_refl (fun _ => eq_refl)).
Defined.

(** X11: a successful deletion removes the rows of the id asked for and
    nothing else: every other note is found as before, the remaining ids
    keep their order, and with distinct ids the table has exactly one row
    less. *)
Theorem delete_note_frame (env : Env) (note_id : UUID) (s s' : Session) :
  unit_of_work s = [] ->
  NoteService.delete_note env note_id s = (Return true, s') ->
  (forall j, j <> note_id ->
             find (has_id j) (table s') = find (has_id j) (table s))
  /\ ids (table s') = filter (fun j => negb (j =? note_id)%N) (ids (table s))
  /\ (pk_unique (table s) ->
      S (List.length (table s')) = List.length (table s)).
Proof.
  intros U R. rewrite (delete_note_paths env note_id s U) in R.
  destruct (fault env call_query); [discriminate|].
  destruct (find (has_id note_id) (table s)) as [n|] eqn:F; [|discriminate].
  destruct (fault env call_delete); [discriminate|].
  destruct (fault env call_commit); [discriminate|].
  injection R as <-. simpl. split; [|split].
  - intros j Hj. now apply find_delete_rows_other.
  - apply delete_rows_ids.
  - intros K. now apply (delete_rows_length note_id (table s) n).
Qed.

Lemma delete_note_frame_witness :
  exists s',
    NoteService.delete_note (quiet 8%N 20%Z) 7%N two_notes = (Return true, s')
    /\ find (has_id 9%N) (table s') = Some call_mum
    /\ ids (table s') = [9%N].
Proof.
  eexists. split; [reflexivity|].
  destruct (delete_note_frame (quiet 8%N 20%Z) 7%N two_notes _
              eq_refl eq_refl) as [H1 [H2 _]].
  split; [apply H1; discriminate | exact H2].
Defined.

(** X12: deleting is idempotent on the table: after [delete_note] has
    returned for an id, another [delete_note] on that id returns [False],
    and it only looks the id up: no delete, commit or rollback is called
    and the table stays as it is. *)
Theorem delete_note_twice (env env' : Env) (note_id : UUID) (s s1 : Session)
  (b : bool) :
  unit_of_work s = [] ->
  NoteService.delete_note env note_id s = (Return b, s1) ->
  fault env' call_query = None ->
  exists s2,
    NoteService.delete_note env' note_id s1 = (Return false, s2)
    /\ table s2 = table s1
    /\ calls s2 = calls s1 ++ [call_query].
Proof.
  intros U R Q. rewrite (delete_note_paths env note_id s U) in R.
  destruct (fault env call_query); [discriminate|].
  destruct (find (has_id note_id) (table s)) as [n|] eqn:F.
  - destruct (fault env call_delete); [discriminate|].
    destruct (fault env call_commit); [discriminate|].
    injection R as <- <-. rewrite delete_note_paths by reflexivity.
    rewrite Q. simpl. unfold delete_rows. rewrite find_filter_out.
    eexists. split; [reflexivity|]. simpl. auto.
  - injection R as <- <-. rewrite delete_note_paths by reflexivity.
    rewrite Q. simpl. rewrite F.
    eexists. split; [reflexivity|]. simpl. auto.
Qed.

Lemma delete_note_twice_witness :
  exists s2,
    NoteService.delete_note (quiet 9%N 21%Z) 7%N
      (snd (NoteService.delete_note (quiet 8%N 20%Z) 7%N one_note))
    = (Return false, s2)
    /\ table s2 = [].
Proof.
  destruct (delete_note_twice (quiet 8%N 20%Z) (quiet 9%N 21%Z) 7%N
              one_note _ true eq_refl eq_refl eq_refl) as [s2 [R [T _]]].
  exists s2. split; [exact R | exact T].
Defined.

(** X13: the last write wins: after a successful update of a note, a
    second update of the same note with other valid content succeeds when
    no call fails, and the note then has the stripped content of the
    second update and the [created_at] it had. *)
Theorem update_note_last_write_wins (env1 env2 : Env) (note_id : UUID)
  (c1 c2 : str) (d1 d2 : NoteUpdate.t) (s s1 : Session) (n1 : Note.t) :
  validate c1 = Valid d1 ->
  validate c2 = Valid d2 ->
  unit_of_work s = [] ->
  NoteService.update_note env1 note_id d1 s = (Return (Some n1), s1) ->
  (forall k, fault env2 k = None) ->
  exists n2 s2,
    NoteService.update_note env2 note_id d2 s1 = (Return (Some n2), s2)
    /\ Note.content n2 = strip c2
    /\ Note.created_at n2 = Note.created_at n1
    /\ find (has_id note_id) (table s2) = Some n2.
Proof.
  intros V1 V2 U R NF.
  apply validate_valid_inv in V1. destruct V1 as [C1 [N1 _]].
  apply validate_valid_inv in V2. destruct V2 as [C2 [N2 _]].
  pose proof (update_note_paths env1 note_id d1 s U) as P1. cbv zeta in P1.
  rewrite P1 in R. clear P1. unfold NoteUpdate.content in R.
  rewrite C1, strip_idem in R.
  destruct (fault env1 call_query); [discriminate|].
  destruct (find (has_id note_id) (table s)) as [n|] eqn:F; [|discriminate].
  destruct (strip c1) as [|a1 r1] eqn:E1; [congruence|]. simpl in R.
  destruct (fault env1 call_commit); [discriminate|].
  destruct (fault env1 call_refresh); [discriminate|].
  injection R as <- <-.
  pose proof (find_update_rows env1 note_id (a1 :: r1) _ _ F) as F1.
  pose proof (update_note_paths env2 note_id d2
                (mkSession (update_rows env1 note_id (a1 :: r1) (table s)) []
                   (calls s ++ [call_query; call_commit; call_refresh]))
                eq_refl) as P2.
  cbv zeta in P2. simpl in P2. rewrite !NF, F1 in P2.
  unfold NoteUpdate.content in P2. rewrite C2, strip_idem in P2.
  destruct (strip c2) as [|a2 r2] eqn:E2; [congruence|]. simpl in P2.
  do 2 eexists. split; [exact P2|]. simpl.
  rewrite updated_content, updated_created_at.
  repeat split; auto. now apply find_update_rows.
Qed.

Lemma update_note_last_write_wins_witness :
  exists n2 s2,
    NoteService.update_note (quiet 9%N 30%Z) 7%N
      (NoteBase.Build (of_string "Update 2"))
      (snd (NoteService.update_note (quiet 8%N 20%Z) 7%N
              (NoteBase.Build (of_string "Update 1")) one_note))
    = (Return (Some n2), s2)
    /\ Note.content n2 = of_string "Update 2".
Proof.
  destruct (update_note_last_write_wins (quiet 8%N 20%Z) (quiet 9%N 30%Z) 7%N
              (of_string "Update 1") (of_string " Update 2")
              (NoteBase.Build (of_string "Update 1"))
              (NoteBase.Build (of_string "Update 2")) one_note _ _
              eq_refl eq_refl eq_refl eq_refl (fun _ => eq_refl))
    as [n2 [s2 [R [C _]]]].
  exists n2, s2. split; [exact R | exact C].
Defined.

(** X14: [update_note] looks the note up before the model checks the
    content, and catches only storage errors: with content that is empty
    or whitespace only (an instance built without validation), a missing
    id still gives [None], and an existing id gives the [ValueError] of
    the model, raised to the caller with no rollback and no commit, the
    table and the pending work as they were. *)
Theorem update_note_unvalidated (env : Env) (note_id : UUID)
  (note_data : NoteUpdate.t) (s : Session) :
  unit_of_work s = [] ->
  fault env call_query = None ->
  whitespace_only (NoteUpdate.content note_data) = true ->
  NoteService.update_note env note_id note_data s
  = (match find (has_id note_id) (table s) with
     | None => Return None
     | Some _ => Raise (ExcValueError "Note content cannot be empty")
     end,
     mkSession (table s) [] (calls s ++ [call_query])).
Proof.
  intros U Q W.
  pose proof (update_note_paths env note_id note_data s U) as P.
  cbv zeta in P. rewrite Q, truthy_strip, W in P. rewrite P.
  destruct (find (has_id note_id) (table s)); reflexivity.
Qed.

Lemma update_note_unvalidated_witness :
  NoteService.update_note (quiet 8%N 20%Z) 7%N
    (NoteBase.Build (of_string "  ")) one_note
  = (Raise (ExcValueError "Note content cannot be empty"),
     mkSession [buy_milk] [] [call_query]).
Proof.
  exact (update_note_unvalidated (quiet 8%N 20%Z) 7%N
           (NoteBase.Build (of_string "  ")) one_note
           eq_refl eq_refl eq_refl).
Defined.

Lemma firstn_plus {A} (n m : nat) (l : list A) :
  firstn (n + m) l = firstn n l ++ firstn m (skipn n l).
Proof.
  revert l. induction n as [|n IH]; intros l; simpl; [reflexivity|].
  destruct l as [|a l]; simpl; [now rewrite firstn_nil|]. now rewrite IH.
Qed.

Lemma get_all_notes_ok (env : Env) (skip limit : Z) (s : Session) :
  fault env call_query = None ->
  (0 <= skip < 9223372036854775808)%Z ->
  (0 <= limit < 9223372036854775808)%Z ->
  NoteService.get_all_notes env (Some skip) (Some limit) s
  = (Return (firstn (Z.to_nat limit) (skipn (Z.to_nat skip) (table s))),
     record_call call_query s).
Proof.
  intros Q A B.
  pose proof (get_all_notes_paths env (Some skip) (Some limit) s) as P.
  cbv zeta in P. rewrite P, Q.
  apply row_count_iff in A. apply row_count_iff in B. rewrite A, B.
  reflexivity.
Qed.

(** X15: pages compose: for an offset and two limits that are counts the
    store takes (the offset [skip + n] and the limit [n + m] below 2^63),
    the page of [n] rows at [skip] followed by the page of [m] rows at
    [skip + n] is the page of [n + m] rows at [skip]. *)
Theorem get_all_notes_pages_concat (env : Env) (s : Session) (skip n m : Z) :
  fault env call_query = None ->
  (0 <= skip)%Z -> (0 <= n)%Z -> (0 <= m)%Z ->
  (skip + n < 9223372036854775808)%Z -> (n + m < 9223372036854775808)%Z ->
  exists page1 page2 s1 s2 s3,
    NoteService.get_all_notes env (Some skip) (Some n) s = (Return page1, s1)
    /\ NoteService.get_all_notes env (Some (skip + n)%Z) (Some m) s1
       = (Return page2, s2)
    /\ NoteService.get_all_notes env (Some skip) (Some (n + m)%Z) s2
       = (Return (page1 ++ page2), s3).
Proof.
  intros Q A B C D E.
  do 5 eexists. split; [|split].
  - apply get_all_notes_ok; auto; lia.
  - apply get_all_notes_ok; auto; lia.
  - rewrite get_all_notes_ok by (auto; lia). simpl. f_equal. f_equal.
    rewrite !Z2Nat.inj_add by lia. rewrite firstn_plus. f_equal.
    rewrite skipn_skipn. f_equal. f_equal. lia.
Qed.

Lemma get_all_notes_pages_concat_witness :
  exists s1 s2 s3,
    NoteService.get_all_notes (quiet 8%N 20%Z) (Some 0%Z) (Some 1%Z) two_notes
    = (Return [buy_milk], s1)
    /\ NoteService.get_all_notes (quiet 8%N 20%Z) (Some 1%Z) (Some 1%Z) s1
       = (Return [call_mum], s2)
    /\ NoteService.get_all_notes (quiet 8%N 20%Z) (Some 0%Z) (Some 2%Z) s2
       = (Return [buy_milk; call_mum], s3).
Proof.
  destruct (get_all_notes_pages_concat (quiet 8%N 20%Z) two_notes 0 1 1
              eq_refl) as [p1 [p2 [s1 [s2 [s3 [R1 [R2 R3]]]]]]];
    try lia.
  vm_compute in R1. injection R1 as <- <-.
  vm_compute in R2. injection R2 as <- <-.
  vm_compute in R3. injection R3 as <-.
  do 3 eexists. repeat split; reflexivity.
Defined.

(** X16: what [get_all_notes] returns, for an offset and a limit that are
    counts the store takes (below 2^63) and a query that does not fail, is
    a contiguous piece of the table in the store's order, of at most
    [limit] rows, starting after the first [skip] rows; from offset 0 with
    a limit of at least the number of rows it is the whole table. *)
Theorem get_all_notes_slice (env : Env) (s : Session) (skip limit : Z) :
  fault env call_query = None ->
  (0 <= skip < 9223372036854775808)%Z ->
  (0 <= limit < 9223372036854775808)%Z ->
  exists page s',
    NoteService.get_all_notes env (Some skip) (Some limit) s
    = (Return page, s')
    /\ (Z.of_nat (List.length page) <= limit)%Z
    /\ (exists before after,
          table s = before ++ page ++ after
          /\ Z.of_nat (List.length before)
             = Z.min skip (Z.of_nat (List.length (table s))))
    /\ (skip = 0%Z -> (Z.of_nat (List.length (table s)) <= limit)%Z ->
        page = table s).
Proof.
  intros Q A B. do 2 eexists.
  split; [now apply get_all_notes_ok|]. split; [|split].
  - pose proof (firstn_le_length (Z.to_nat limit)
                  (skipn (Z.to_nat skip) (table s))). lia.
  - exists (firstn (Z.to_nat skip) (table s)),
      (skipn (Z.to_nat limit) (skipn (Z.to_nat skip) (table s))).
    split.
    + now rewrite firstn_skipn, firstn_skipn.
    + rewrite length_firstn. lia.
  - intros -> L. simpl. apply firstn_all2. lia.
Qed.

Lemma get_all_notes_slice_witness :
  exists s',
    NoteService.get_all_notes (quiet 8%N 20%Z) (Some 0%Z) (Some 5%Z) two_notes
    = (Return [buy_milk; call_mum], s').
Proof.
  destruct (get_all_notes_slice (quiet 8%N 20%Z) two_notes 0 5 eq_refl)
    as [page [s' [R [_ [_ W]]]]]; try lia.
  exists s'. rewrite R. f_equal. f_equal. apply W; [reflexivity|].
  vm_compute; discriminate.
Defined.

(** X17: in every session the service reaches from the empty table,
    whatever failed on the way, nothing is pending between two calls and
    the ids are distinct: two rows with one id are one row, so the lookup
    by id finds the only row there is. *)
Theorem reachable_primary_key (s : Session) :
  reachable s ->
  unit_of_work s = []
  /\ NoDup (ids (table s))
  /\ forall n m, In n (table s) -> In m (table s) ->
                 Note.id n = Note.id m -> n = m.
Proof.
  intros R. destruct (reachable_invariant s R) as [U [_ K]].
  split; [exact U|]. split; [exact K|].
  unfold pk_unique in K. induction (table s) as [|a rows IH]; simpl.
  - intros n m [].
  - inversion K as [|? ? Ha Hr]; subst.
    intros n m [->|Hn] [->|Hm] E; auto.
    + exfalso. apply Ha. rewrite E. now apply in_map.
    + exfalso. apply Ha. rewrite <- E. now apply in_map.
Qed.

Lemma reachable_primary_key_witness :
  NoDup (ids (table (snd (NoteService.create_note (quiet 8%N 20%Z)
                            (NoteBase.Build (of_string "Buy eggs"))
                            empty_session)))).
Proof.
  apply (reachable_primary_key _).
  apply (reachable_step empty_session _ reachable_empty).
  apply step_create. exists (of_string " Buy eggs "). reflexivity.
Defined.

(** What one call in the environment [env] does to the table. *)
Lemma step_in_table (env : Env) (s s' : Session) :
  step_in env s s' -> unit_of_work s = [] ->
  unit_of_work s' = []
  /\ (table s' = table s
      \/ (exists c, table s' = table s ++ [inserted env c])
      \/ (exists note_id c, table s' = update_rows env note_id c (table s))
      \/ (exists note_id, table s' = delete_rows note_id (table s))).
Proof.
  intros St U.
  destruct St as [note_data s I | note_id s | skip limit s
                 | note_id note_data s I | note_id s].
  - rewrite (create_note_paths env note_data s U). cbv zeta.
    destruct (fault env call_add); [simpl; auto|].
    destruct (fault env call_commit); [simpl; auto|].
    destruct (existsb (has_id (uuid4 env)) (table s)); [simpl; auto|].
    destruct (fault env call_refresh); simpl; eauto 6.
  - rewrite get_note_by_id_paths.
    destruct (fault env call_query); simpl; auto.
  - pose proof (get_all_notes_paths env skip limit s) as P. cbv zeta in P.
    rewrite P. destruct (fault env call_query); [simpl; auto|].
    destruct (_ || _)%bool; simpl; auto.
  - rewrite (update_note_paths env note_id note_data s U). cbv zeta.
    destruct (fault env call_query); [simpl; auto|].
    destruct (find (has_id note_id) (table s)) as [n|]; [|simpl; auto].
    destruct (_ || _)%bool; [simpl; auto|].
    destruct (fault env call_commit); [simpl; auto|].
    destruct (fault env call_refresh); simpl; eauto 8.
  - rewrite (delete_note_paths env note_id s U).
    destruct (fault env call_query); [simpl; auto|].
    destruct (find (has_id note_id) (table s)) as [n|]; [|simpl; auto].
    destruct (fault env call_delete); [simpl; auto|].
    destruct (fault env call_commit); simpl; eauto 8.
Qed.

Lemma timestamps_ordered_later (t t' : DateTime) (rows : list Note.t) :
  (t <= t')%Z -> timestamps_ordered t rows -> timestamps_ordered t' rows.
Proof.
  intros L H. unfold timestamps_ordered in *.
  eapply Forall_impl; [|exact H]. simpl. intros n [A B]. lia.
Qed.

Lemma run_to_invariant (t : DateTime) (s : Session) :
  run_to t s -> unit_of_work s = [] /\ timestamps_ordered t (table s).
Proof.
  induction 1 as [t | t env s s' R [U T] L St].
  - split; constructor.
  - destruct (step_in_table env s s' St U) as [U' H]. split; [exact U'|].
    pose proof (timestamps_ordered_later t (now env) (table s) L T) as T'.
    destruct H as [-> | [[c ->] | [[i [c ->]] | [i ->]]]].
    + exact T'.
    + apply Forall_app. split; [exact T'|]. constructor; [|constructor].
      simpl. lia.
    + unfold timestamps_ordered in *. rewrite Forall_forall in *.
      intros m Hm. apply update_rows_in in Hm.
      destruct Hm as [Hm | [n [Hn [_ ->]]]]; [now apply T'|].
      destruct (T n Hn) as [A B]. unfold updated.
      destruct (PyStr.eqb (Note.content n) c); simpl; lia.
    + unfold timestamps_ordered, delete_rows in *. apply Forall_forall.
      intros n Hn. apply filter_In in Hn. destruct Hn as [Hn _].
      rewrite Forall_forall in T'. now apply T'.
Qed.

(** X18: as long as the store's [now()] never goes back from one call of
    the service to the next, every row has [created_at <= updated_at],
    and no timestamp is later than the time of the last call, whatever
    calls failed on the way. *)
Theorem created_before_updated (t : DateTime) (s : Session) :
  run_to t s ->
  forall n, In n (table s) ->
            (Note.created_at n <= Note.updated_at n /\ Note.updated_at n <= t)%Z.
Proof.
  intros R n Hn. destruct (run_to_invariant t s R) as [_ T].
  unfold timestamps_ordered in T. rewrite Forall_forall in T. now apply T.
Qed.

Lemma created_before_updated_witness :
  (Note.created_at (Note.Build 8%N (of_string "Buy bread") 20%Z 30%Z)
   <= Note.updated_at (Note.Build 8%N (of_string "Buy bread") 20%Z 30%Z)
   /\ Note.updated_at (Note.Build 8%N (of_string "Buy bread") 20%Z 30%Z)
      <= 30)%Z.
Proof.
  apply (created_before_updated 30%Z
           (snd (NoteService.update_note (quiet 9%N 30%Z) 8%N
                   (NoteBase.Build (of_string "Buy bread"))
                   (snd (NoteService.create_note (quiet 8%N 20%Z)
                           (NoteBase.Build (of_string "Buy eggs"))
                           empty_session))))).
  - apply (run_to_step 20%Z (quiet 9%N 30%Z)
             (snd (NoteService.create_note (quiet 8%N 20%Z)
                     (NoteBase.Build (of_string "Buy eggs")) empty_session))).
    + apply (run_to_step 20%Z (quiet 8%N 20%Z) empty_session).
      * apply run_to_start.
      * simpl; lia.
      * apply step_in_create. exists (of_string "Buy eggs"). reflexivity.
    + simpl; lia.
    + apply step_in_update. exists (of_string "Buy bread"). reflexivity.
  - left. reflexivity.
Defined.

End ServiceFacts.

(* ================================================================= *)
(** ** What the writing operations leave alone *)

Section Frame.

Lemma find_filter_other (i j : UUID) (rows : list Note.t) :
  j <> i -> find (has_id j) (filter (has_id i) rows) = None.
Proof.
  intros Hji. induction rows as [|n rows IH]; simpl; [reflexivity|].
  destruct (has_id i n) eqn:Ei; [|exact IH]. simpl.
  apply has_id_true in Ei.
  assert (has_id j n = false) as -> by (apply has_id_false; congruence).
  exact IH.
Qed.

Lemma find_update_rows_other (env : Env) (i j : UUID) (c : str)
  (rows : list Note.t) :
  j <> i ->
  find (has_id j) (update_rows env i c rows) = find (has_id j) rows.
Proof.
  intros Hji. unfold update_rows.
  destruct (existsb (changed i c) rows); [|reflexivity].
  rewrite find_app_or.
  fold (delete_rows i rows). rewrite (find_delete_rows_other i j rows Hji).
  destruct (find (has_id j) rows) as [x|]; [reflexivity|].
  rewrite find_map_same_id by (intros m; apply updated_id).
  now rewrite find_filter_other.
Qed.

(** X23: a create, update or delete, whether it returns or raises and
    whatever call fails, leaves every note of another id exactly as it
    was: looked up by id after the operation, it is the row it was
    before. *)
Theorem mutation_frame (env : Env) (op : Mutation) (s : Session) (j : UUID) :
  unit_of_work s = [] ->
  j <> target env op ->
  find (has_id j) (table (snd (run env op s))) = find (has_id j) (table s).
Proof.
  intros U Hj. destruct op as [note_data | note_id note_data | note_id];
    unfold run, target in *.
  - rewrite (create_note_paths env note_data s U). cbv zeta.
    destruct (fault env call_add); [reflexivity|].
    destruct (fault env call_commit); [reflexivity|].
    destruct (existsb _ _); [reflexivity|].
    destruct (fault env call_refresh); simpl;
      apply find_app_other; simpl; congruence.
  - rewrite (update_note_paths env note_id note_data s U). cbv zeta.
    destruct (fault env call_query); [reflexivity|].
    destruct (find (has_id note_id) (table s)); [|reflexivity].
    destruct (_ || _)%bool; [reflexivity|].
    destruct (fault env call_commit); [reflexivity|].
    destruct (fault env call_refresh); simpl;
      now apply find_update_rows_other.
  - rewrite (delete_note_paths env note_id s U).
    destruct (fault env call_query); [reflexivity|].
    destruct (find (has_id note_id) (table s)); [|reflexivity].
    destruct (fault env call_delete); [reflexivity|].
    destruct (fault env call_commit); simpl; [reflexivity|].
    now apply find_delete_rows_other.
Qed.

Lemma mutation_frame_witness :
  find (has_id 9%N)
    (table (snd (run (quiet 8%N 20%Z)
                   (do_update 7%N (NoteBase.Build (of_string "Buy eggs")))
                   two_notes)))
  = Some call_mum.
Proof.
  rewrite (mutation_frame (quiet 8%N 20%Z)
             (do_update 7%N (NoteBase.Build (of_string "Buy eggs")))
             two_notes 9%N eq_refl); [reflexivity | discriminate].
Defined.

(** X24: saving a note again with the content it has changes nothing:
    after a successful update, a second update of the same note with the
    same instance, at whatever later time, succeeds when no call fails,
    returns the record the first returned and leaves the table, with its
    [updated_at], as the first left it. *)
Theorem update_note_again (env1 env2 : Env) (note_id : UUID) (c : str)
  (note_data : NoteUpdate.t) (s s1 : Session) (n1 : Note.t) :
  validate c = Valid note_data ->
  unit_of_work s = [] ->
  NoteService.update_note env1 note_id note_data s = (Return (Some n1), s1) ->
  (forall k, fault env2 k = None) ->
  exists s2,
    NoteService.update_note env2 note_id note_data s1 = (Return (Some n1), s2)
    /\ table s2 = table s1.
Proof.
  intros V U R NF.
  apply validate_valid_inv in V. destruct V as [C [N _]].
  pose proof (update_note_paths env1 note_id note_data s U) as P1.
  cbv zeta in P1. rewrite P1 in R. clear P1. unfold NoteUpdate.content in R.
  rewrite C, strip_idem in R.
  destruct (fault env1 call_query); [discriminate|].
  destruct (find (has_id note_id) (table s)) as [n|] eqn:F; [|discriminate].
  assert (strip (strip c) = strip c) as I by apply strip_idem.
  destruct (strip c) as [|a r] eqn:E; [congruence|]. simpl in R.
  destruct (fault env1 call_commit); [discriminate|].
  destruct (fault env1 call_refresh); [discriminate|].
  injection R as <- <-.
  pose proof (find_update_rows env1 note_id (a :: r) _ _ F) as F1.
  pose proof (update_note_paths env2 note_id note_data
                (mkSession (update_rows env1 note_id (a :: r) (table s)) []
                   (calls s ++ [call_query; call_commit; call_refresh]))
                eq_refl) as P2.
  cbv zeta in P2. cbn [table calls unit_of_work] in P2. rewrite !NF, F1 in P2.
  unfold NoteUpdate.content in P2. rewrite C, I in P2.
  cbn [truthy negb orb] in P2.
  assert (forall m, In m (update_rows env1 note_id (a :: r) (table s)) ->
                    has_id note_id m = true ->
                    Note.content m = a :: r) as Hc.
  { intros m Hm Hid. exact (update_rows_content env1 _ _ _ m Hm Hid). }
  assert (update_rows env2 note_id (a :: r)
            (update_rows env1 note_id (a :: r) (table s))
          = update_rows env1 note_id (a :: r) (table s)) as Same.
  { unfold update_rows at 1.
    destruct (existsb (changed note_id (a :: r)) _) eqn:X; [|reflexivity].
    apply existsb_exists in X. destruct X as [m [Hm X]].
    unfold changed in X. apply andb_true_iff in X. destruct X as [Hid X].
    rewrite (Hc m Hm Hid), str_eqb_refl in X. discriminate. }
  rewrite Same in P2.
  assert (updated env2 (updated env1 n (a :: r)) (a :: r)
          = updated env1 n (a :: r)) as Same'.
  { unfold updated at 1. rewrite updated_content, str_eqb_refl. reflexivity. }
  rewrite Same' in P2.
  eexists. split; [exact P2|]. reflexivity.
Qed.

Lemma update_note_again_witness :
  exists s2,
    NoteService.update_note (quiet 9%N 30%Z) 7%N
      (NoteBase.Build (of_string "Buy eggs"))
      (snd (NoteService.update_note (quiet 8%N 20%Z) 7%N
              (NoteBase.Build (of_string "Buy eggs")) one_note))
    = (Return (Some (Note.Build 7%N (of_string "Buy eggs") 10%Z 20%Z)), s2)
    /\ table s2 = [Note.Build 7%N (of_string "Buy eggs") 10%Z 20%Z].
Proof.
  apply (update_note_again (quiet 8%N 20%Z) (quiet 9%N 30%Z) 7%N
           (of_string "Buy eggs") (NoteBase.Build (of_string "Buy eggs"))
           one_note _ _ eq_refl eq_refl eq_refl (fun _ => eq_refl)).
Defined.

End Frame.

(* ================================================================= *)
(** ** The form handlers *)

Section Handlers.

(** The schema on a stripped string, as the handlers call it: the
    validator has nothing left to reject. *)
Lemma validate_stripped (content : str) :
  validate (strip content) =
  if whitespace_only content then ValidationError (string_too_short 1)
  else if negb (well_formed content) then ValidationError string_unicode
  else if (len (strip content) >? 5000)%Z then
    ValidationError (string_too_long 5000)
  else Valid (NoteBase.Build (strip content)).
Proof.
  rewrite validate_cases, strip_idem.
  destruct (whitespace_only content) eqn:W.
  - apply strip_nil_iff in W. rewrite W. reflexivity.
  - apply whitespace_only_false_strip in W.
    assert (whitespace_only (strip content) = false) as W'.
    { apply whitespace_only_false_strip. now rewrite strip_idem. }
    rewrite W', well_formed_strip.
    destruct (negb (well_formed content)); [reflexivity|].
    destruct (strip content) as [|c t]; [congruence|].
    assert ((len (c :: t) <? 1)%Z = false) as ->
        by (apply Z.ltb_ge; unfold len; simpl; lia).
    reflexivity.
Qed.

(** X19: [web_notes_create_submit] always answers, on a session with
    nothing pending and for content that, stripped, the driver takes (it
    holds no NUL character).  It answers 422 or 400 without touching the
    session; the 400 carries a violation of the field's constraints (too
    short, not well-formed text, too long), never an error of the
    validator, since the handler strips the content first.  It answers
    the redirect (303 to "/") only after the note, with the stripped
    content, was appended to the table.  It answers 500 after a
    rollback. *)
Theorem create_submit_answers (env : Env) (content : str) (s : Session) :
  unit_of_work s = [] ->
  nul_free (strip content) = true ->
  exists resp s',
    Web.web_notes_create_submit env content s = (Return resp, s')
    /\ ((resp = RequestValidationError /\ s' = s
         /\ ((len content < 1)%Z \/ (len content > 10000)%Z))
        \/ (exists e,
              resp = TemplateResponse "notes/create.html" [] None
                       (Some (error_of_validation e)) 400
              /\ s' = s
              /\ ((e = string_too_short 1 /\ whitespace_only content = true)
                  \/ (e = string_unicode /\ well_formed content = false)
                  \/ (e = string_too_long 5000
                      /\ (len (strip content) > 5000)%Z)))
        \/ (resp = RedirectResponse "/" 303
            /\ table s' = table s ++ [inserted env (strip content)]
            /\ unit_of_work s' = []
            /\ strip content <> [] /\ (len (strip content) <= 5000)%Z)
        \/ (resp = TemplateResponse "notes/create.html" [] None
                     (Some (error_text
                              "Failed to create note. Please try again."))
                     500
            /\ ends_with_rollback s' /\ unit_of_work s' = [])).
Proof.
  intros U _. unfold Web.web_notes_create_submit.
  change (NoteCreate.init (Some (strip content)))
    with (validate (strip content)).
  destruct (Web.form_content_ok content) eqn:F; cbn [negb].
  2:{ do 2 eexists. split; [reflexivity|]. left. repeat split.
      unfold Web.form_content_ok in F. apply andb_false_iff in F.
      destruct F as [F|F]; apply Z.leb_gt in F; lia. }
  rewrite validate_stripped.
  destruct (whitespace_only content) eqn:W.
  { do 2 eexists. split; [reflexivity|]. right; left.
    eexists. repeat split. now left. }
  destruct (well_formed content) eqn:WF; cbn [negb].
  2:{ do 2 eexists. split; [reflexivity|]. right; left.
      eexists. repeat split. right; left. split; reflexivity. }
  destruct (len (strip content) >? 5000)%Z eqn:L.
  { do 2 eexists. split; [reflexivity|]. right; left.
    eexists. repeat split. right; right. split; [reflexivity|].
    apply Z.gtb_lt in L. lia. }
  rewrite (create_note_paths env _ s U). cbv zeta.
  unfold NoteCreate.content. simpl NoteBase.content.
  destruct (fault env call_add).
  { do 2 eexists. split; [reflexivity|]. right; right; right.
    split; [reflexivity|]. split; [|reflexivity].
    exists (calls s ++ [call_add]). simpl. now rewrite <- app_assoc. }
  destruct (fault env call_commit).
  { do 2 eexists. split; [reflexivity|]. right; right; right.
    split; [reflexivity|]. split; [|reflexivity].
    exists (calls s ++ [call_add; call_commit]). simpl.
    now rewrite <- app_assoc. }
  destruct (existsb (has_id (uuid4 env)) (table s)).
  { do 2 eexists. split; [reflexivity|]. right; right; right.
    split; [reflexivity|]. split; [|reflexivity].
    exists (calls s ++ [call_add; call_commit]). simpl.
    now rewrite <- app_assoc. }
  destruct (fault env call_refresh).
  { do 2 eexists. split; [reflexivity|]. right; right; right.
    split; [reflexivity|]. split; [|reflexivity].
    exists (calls s ++ [call_add; call_commit; call_refresh]). simpl.
    now rewrite <- app_assoc. }
  do 2 eexists. split; [reflexivity|]. right; right; left. simpl.
  repeat split; auto.
  - now apply whitespace_only_false_strip.
  - rewrite Z.gtb_ltb in L. apply Z.ltb_ge in L. exact L.
Qed.

Lemma create_submit_answers_witness :
  exists s',
    Web.web_notes_create_submit (quiet 8%N 20%Z) (of_string " Buy eggs ")
      one_note = (Return (RedirectResponse "/" 303), s')
    /\ table s' = [buy_milk; Note.Build 8%N (of_string "Buy eggs") 20%Z 20%Z].
Proof.
  destruct (create_submit_answers (quiet 8%N 20%Z) (of_string " Buy eggs ")
              one_note eq_refl eq_refl) as [resp [s' [R _]]].
  vm_compute in R. injection R as <- <-. eexists. split; reflexivity.
Defined.

(** X20: [web_notes_edit_submit], when no call fails on a session with
    nothing pending.  The content is validated before the note is looked
    up: content that fails (stripped, it is empty or longer than 5000, or
    it is not well-formed text)
    gets the form again with status 400, also for an id that has no note,
    and the table is not touched; valid content gets 404 when the id has
    no note, with no commit, and otherwise the redirect, the note then
    holding the stripped content. *)
Theorem edit_submit_answers (env : Env) (note_id : UUID) (content : str)
  (s : Session) :
  unit_of_work s = [] ->
  (forall k, fault env k = None) ->
  exists resp s',
    Web.web_notes_edit_submit env note_id content s = (Return resp, s')
    /\ ((resp = RequestValidationError /\ s' = s
         /\ ((len content < 1)%Z \/ (len content > 10000)%Z))
        \/ (exists e,
              resp = TemplateResponse "notes/edit.html" []
                       (find (has_id note_id) (table s))
                       (Some (error_of_validation e)) 400
              /\ table s' = table s
              /\ calls s' = calls s ++ [call_query]
              /\ ((e = string_too_short 1 /\ whitespace_only content = true)
                  \/ (e = string_unicode /\ well_formed content = false)
                  \/ (e = string_too_long 5000
                      /\ (len (strip content) > 5000)%Z)))
        \/ (resp = HTTPException 404
            /\ find (has_id note_id) (table s) = None
            /\ table s' = table s
            /\ calls s' = calls s ++ [call_query])
        \/ (exists n,
              resp = RedirectResponse "/" 303
              /\ find (has_id note_id) (table s) = Some n
              /\ find (has_id note_id) (table s')
                 = Some (updated env n (strip content))
              /\ Note.content (updated env n (strip content)) = strip content
              /\ calls s' = calls s ++ [call_query; call_commit; call_refresh])).
Proof.
  intros U NF. unfold Web.web_notes_edit_submit.
  change (NoteUpdate.init (Some (strip content)))
    with (validate (strip content)).
  destruct (Web.form_content_ok content) eqn:F; cbn [negb].
  2:{ do 2 eexists. split; [reflexivity|]. left. repeat split.
      unfold Web.form_content_ok in F. apply andb_false_iff in F.
      destruct F as [F|F]; apply Z.leb_gt in F; lia. }
  rewrite validate_stripped.
  destruct (whitespace_only content) eqn:W.
  { unfold Web.edit_form_again, bind, ret.
    rewrite get_note_by_id_paths, NF. simpl.
    do 2 eexists. split; [reflexivity|]. right; left.
    eexists. repeat split. now left. }
  destruct (well_formed content) eqn:WF; cbn [negb].
  2:{ unfold Web.edit_form_again, bind, ret.
      rewrite get_note_by_id_paths, NF. simpl.
      do 2 eexists. split; [reflexivity|]. right; left.
      eexists. repeat split. right; left. split; reflexivity. }
  destruct (len (strip content) >? 5000)%Z eqn:L.
  { unfold Web.edit_form_again, bind, ret.
    rewrite get_note_by_id_paths, NF. simpl.
    do 2 eexists. split; [reflexivity|]. right; left.
    eexists. repeat split. right; right. split; [reflexivity|].
    apply Z.gtb_lt in L. lia. }
  pose proof (update_note_paths env note_id
                (NoteBase.Build (strip content)) s U) as P.
  cbv zeta in P. rewrite !NF in P. unfold NoteUpdate.content in P.
  simpl NoteBase.content in P. rewrite truthy_strip, strip_idem in P.
  assert (whitespace_only (strip content) = false) as W'.
  { apply whitespace_only_false_strip. rewrite strip_idem.
    now apply whitespace_only_false_strip. }
  rewrite W' in P. rewrite P.
  destruct (find (has_id note_id) (table s)) as [n|] eqn:Fd.
  - do 2 eexists. split; [reflexivity|]. right; right; right.
    exists n. simpl. repeat split; auto.
    + now apply find_update_rows.
    + apply updated_content.
  - do 2 eexists. split; [reflexivity|]. right; right; left.
    simpl. repeat split; auto.
Qed.

Lemma edit_submit_answers_witness :
  exists s',
    Web.web_notes_edit_submit (quiet 8%N 20%Z) 7%N (of_string " Buy eggs ")
      one_note = (Return (RedirectResponse "/" 303), s')
    /\ table s' = [Note.Build 7%N (of_string "Buy eggs") 10%Z 20%Z].
Proof.
  destruct (edit_submit_answers (quiet 8%N 20%Z) 7%N (of_string " Buy eggs ")
              one_note eq_refl (fun _ => eq_refl)) as [resp [s' [R _]]].
  vm_compute in R. injection R as <- <-. eexists. split; reflexivity.
Defined.

(** X21: [web_notes_delete] always answers, on a session with nothing
    pending: the redirect after the rows of that id were deleted (the id
    is then nowhere in the table), 404 when the id had no note, the table
    untouched and nothing committed, and 500 when a call failed, after a
    rollback and with the table as it was. *)
Theorem delete_handler_answers (env : Env) (note_id : UUID) (s : Session) :
  unit_of_work s = [] ->
  exists resp s',
    Web.web_notes_delete env note_id s = (Return resp, s')
    /\ ((resp = RedirectResponse "/" 303
         /\ In note_id (ids (table s))
         /\ table s' = delete_rows note_id (table s)
         /\ ~ In note_id (ids (table s')))
        \/ (resp = HTTPException 404
            /\ ~ In note_id (ids (table s))
            /\ table s' = table s
            /\ calls s' = calls s ++ [call_query])
        \/ (resp = HTTPException 500
            /\ table s' = table s
            /\ unit_of_work s' = []
            /\ ends_with_rollback s')).
Proof.
  intros U. unfold Web.web_notes_delete.
  rewrite (delete_note_paths env note_id s U).
  destruct (fault env call_query).
  { do 2 eexists. split; [reflexivity|]. right; right. repeat split.
    exists (calls s ++ [call_query]). simpl. now rewrite <- app_assoc. }
  destruct (find (has_id note_id) (table s)) as [n|] eqn:F.
  2:{ do 2 eexists. split; [reflexivity|]. right; left. repeat split.
      now apply find_none_not_in. }
  destruct (fault env call_delete).
  { do 2 eexists. split; [reflexivity|]. right; right. repeat split.
    exists (calls s ++ [call_query; call_delete]). simpl.
    now rewrite <- app_assoc. }
  destruct (fault env call_commit).
  { do 2 eexists. split; [reflexivity|]. right; right. repeat split.
    exists (calls s ++ [call_query; call_delete; call_commit]). simpl.
    now rewrite <- app_assoc. }
  do 2 eexists. split; [reflexivity|]. left. simpl.
  split; [reflexivity|]. split; [|split; [reflexivity|]].
  - destruct (find_has_id _ _ _ F) as [Hid Hin]. rewrite <- Hid.
    unfold ids. now apply in_map.
  - apply find_none_not_in. unfold delete_rows. apply find_filter_out.
Qed.

Lemma delete_handler_answers_witness :
  exists s',
    Web.web_notes_delete (quiet 8%N 20%Z) 7%N two_notes
    = (Return (RedirectResponse "/" 303), s')
    /\ table s' = [call_mum].
Proof.
  destruct (delete_handler_answers (quiet 8%N 20%Z) 7%N two_notes eq_refl)
    as [resp [s' [R _]]].
  vm_compute in R. injection R as <- <-. eexists. split; reflexivity.
Defined.

(** X22: the pages that only read always answer and change neither the
    table nor the pending work, whatever fails: the home page shows the
    first 100 rows of the table, or 500; the edit form shows the note of
    the id, 404 when there is none, or 500; the create form does not use
    the session at all. *)
Theorem read_pages_answer (env : Env) (note_id : UUID) (s : Session) :
  (exists resp s',
     Web.web_index env s = (Return resp, s')
     /\ table s' = table s /\ unit_of_work s' = unit_of_work s
     /\ (resp = TemplateResponse "index.html" (firstn 100 (table s))
                  None None 200
         \/ (resp = HTTPException 500 /\ fault env call_query <> None)))
  /\ (exists resp s',
        Web.web_notes_edit_form env note_id s = (Return resp, s')
        /\ table s' = table s /\ unit_of_work s' = unit_of_work s
        /\ ((exists n, find (has_id note_id) (table s) = Some n
                       /\ resp = TemplateResponse "notes/edit.html" []
                                   (Some n) None 200)
            \/ (resp = HTTPException 404
                /\ find (has_id note_id) (table s) = None)
            \/ (resp = HTTPException 500 /\ fault env call_query <> None)))
  /\ Web.web_notes_create_form s
     = (Return (TemplateResponse "notes/create.html" [] None None 200), s).
Proof.
  split; [|split; [|reflexivity]].
  - unfold Web.web_index.
    pose proof (get_all_notes_paths env None None s) as P. cbv zeta in P.
    rewrite P. destruct (fault env call_query) eqn:Q.
    + do 2 eexists. split; [reflexivity|]. simpl. repeat split.
      right. split; [reflexivity | discriminate].
    + simpl. do 2 eexists. split; [reflexivity|]. simpl. auto.
  - unfold Web.web_notes_edit_form. rewrite get_note_by_id_paths.
    destruct (fault env call_query) eqn:Q.
    + do 2 eexists. split; [reflexivity|]. simpl. repeat split.
      right; right. split; [reflexivity | discriminate].
    + destruct (find (has_id note_id) (table s)) as [n|] eqn:F.
      * do 2 eexists. split; [reflexivity|]. simpl. repeat split.
        left. exists n. auto.
      * do 2 eexists. split; [reflexivity|]. simpl. repeat split.
        right; left. auto.
Qed.

End Handlers.
